(** * posthog-digest: the metrics pipeline, embedded and verified

    A shallow embedding of [agents/posthog-digest] (formatters.py,
    posthog_client.py, discord_client.py, main.py).  Python values are
    modelled as the interpreter has them: [str] as a sequence of Unicode
    code points, [int] as [Z], [float] as an IEEE 754 binary64 number
    ([spec_float] with [prec = 53], [emax = 1024]), a raised exception as
    the [Raise] branch of [pyres]. *)

From Stdlib Require Import ZArith List String Ascii Bool Lia QArith Qabs Sorted.
From Stdlib Require Import Floats.SpecFloat DecimalString.
From Stdlib Require DecimalPos.
Import ListNotations.

Local Open Scope Z_scope.
Set Warnings "-register-all".

(** ** Python strings *)

(** A [str] is a sequence of code points; [len], slicing and [split] count
    code points, not bytes. *)
Definition codepoint := N.
Definition pystr := list codepoint.

Definition bytes_of_string (s : string) : list N :=
  map N_of_ascii (list_ascii_of_string s).

(** Literals are written as UTF-8 text and decoded to code points. *)
Fixpoint utf8_decode (bs : list N) : pystr :=
  match bs with
  | [] => []
  | b0 :: r0 =>
      if (b0 <? 128)%N then b0 :: utf8_decode r0
      else if (b0 <? 224)%N then
        match r0 with
        | b1 :: r1 => ((b0 mod 32) * 64 + b1 mod 64)%N :: utf8_decode r1
        | _ => []
        end
      else if (b0 <? 240)%N then
        match r0 with
        | b1 :: b2 :: r2 =>
            ((b0 mod 16) * 4096 + (b1 mod 64) * 64 + b2 mod 64)%N :: utf8_decode r2
        | _ => []
        end
      else
        match r0 with
        | b1 :: b2 :: b3 :: r3 =>
            ((b0 mod 8) * 262144 + (b1 mod 64) * 4096 + (b2 mod 64) * 64 + b3 mod 64)%N
              :: utf8_decode r3
        | _ => []
        end
  end.

Definition u8 (s : string) : pystr := utf8_decode (bytes_of_string s).

(** [str(n)] for an [int]. *)
Definition str_of_int (n : Z) : pystr := u8 (NilZero.string_of_int (Z.to_int n)).

(** [s[:n]] *)
Definition slice_to (n : nat) (s : pystr) : pystr := firstn n s.

(** ** Exceptions and results *)

Inductive exn : Type :=
| AttributeError
| KeyError
| IndexError
| TypeError
| ValueError
| OverflowError
| ZeroDivisionError
| RuntimeError (msg : pystr)
| PostHogAPIError (msg : pystr)
| ClientError (detail : pystr)
| RetryError (last_attempt : exn)
| BaseException (detail : pystr).

Inductive pyres (A : Type) : Type :=
| Ok (a : A)
| Raise (e : exn).
Arguments Ok {A} a.
Arguments Raise {A} e.

Definition bind {A B : Type} (r : pyres A) (k : A -> pyres B) : pyres B :=
  match r with
  | Ok a => k a
  | Raise e => Raise e
  end.

Notation "x <- c ;; k" := (bind c (fun x => k))
  (at level 61, c at next level, right associativity).
Notation "' p <- c ;; k" := (bind c (fun p => k))
  (at level 61, p pattern, c at next level, right associativity).

(** ** Python floats *)

Module Float.

Definition prec : Z := 53.
Definition emax : Z := 1024.

Definition mul : spec_float -> spec_float -> spec_float := SFmul prec emax.
Definition abs : spec_float -> spec_float := SFabs.
Definition ltb : spec_float -> spec_float -> bool := SFltb.

(** [float(n)] for an [int] small enough to convert. *)
Definition of_int (n : Z) : spec_float := binary_normalize prec emax n 0 false.

(** [a / b] on two [int]s: CPython's [long_true_divide] returns the
    correctly rounded quotient of the exact integers (ties to even), a
    signed zero when [a] is zero or the quotient underflows, and raises
    [OverflowError] when the rounded quotient exceeds the largest float.
    [SFdiv] on the integers as exact mantissas (exponent 0) is that
    rounding. *)
Definition int_truediv (a b : Z) : pyres spec_float :=
  if b =? 0 then Raise ZeroDivisionError
  else
    let negate := xorb (a <? 0) (b <? 0) in
    match a with
    | 0 => Ok (S754_zero negate)
    | _ =>
        match SFdiv prec emax
                (S754_finite (a <? 0) (Z.to_pos (Z.abs a)) 0)
                (S754_finite (b <? 0) (Z.to_pos (Z.abs b)) 0) with
        | S754_infinity _ => Raise OverflowError
        | q => Ok q
        end
    end.


(** The magnitude of a finite float rounded to an integer, ties to even:
    the digits that ['%.0f'] prints. *)
Definition round_half_even_mag (m : positive) (e : Z) : Z :=
  if 0 <=? e then Z.pos m * 2 ^ e
  else
    let d := 2 ^ (- e) in
    let q := Z.pos m / d in
    let r := Z.pos m mod d in
    match 2 * r ?= d with
    | Lt => q
    | Gt => q + 1
    | Eq => if Z.even q then q else q + 1
    end.

Definition sign_str (s : bool) : pystr := if s then u8 "-" else [].

(** [f"{x:.0f}"] *)
Definition format_0f (x : spec_float) : pystr :=
  match x with
  | S754_nan => u8 "nan"
  | S754_infinity s => sign_str s ++ u8 "inf"
  | S754_zero s => sign_str s ++ u8 "0"
  | S754_finite s m e => sign_str s ++ str_of_int (round_half_even_mag m e)
  end.



End Float.

(** ** formatters.py *)

(** [f"{n:,}"]: the decimal digits in groups of three from the right. *)
Fixpoint group3_rev (ds : pystr) : pystr :=
  match ds with
  | a :: b :: c :: ((_ :: _) as rest) => a :: b :: c :: 44%N :: group3_rev rest
  | _ => ds
  end.

Definition format_number (n : Z) : pystr :=
  (if n <? 0 then u8 "-" else []) ++ List.rev (group3_rev (List.rev (str_of_int (Z.abs n)))).

Definition arrow_none : pystr := [8596%N].   (* "↔" *)
Definition arrow_up : pystr := [8593%N].     (* "↑" *)
Definition arrow_down : pystr := [8595%N].   (* "↓" *)

Definition format_change (current : Z) (previous : option Z) : pyres pystr :=
  match previous with
  | None => Ok (format_number current)
  | Some previous =>
      if previous =? 0 then Ok (format_number current)
      else
        let change := current - previous in
        q <- Float.int_truediv change previous ;;
        let pct := Float.mul q (Float.of_int 100) in
        let '(arrow, sign) :=
          if Float.ltb (Float.abs pct) (Float.of_int 1) then (arrow_none, [])
          else if change >? 0 then (arrow_up, u8 "+")
          else (arrow_down, []) in
        Ok (format_number current ++ u8 " " ++ arrow ++ u8 " " ++ sign
              ++ Float.format_0f pct ++ u8 "%")
  end.

(** ** JSON values *)

(** A decoded response body, as [json.loads] builds it.  A [dict] keeps its
    items in insertion order, with distinct keys. *)
Inductive json : Type :=
| JNull
| JBool (b : bool)
| JInt (n : Z)
| JFloat (x : spec_float)
| JStr (s : pystr)
| JList (items : list json)
| JDict (items : list (pystr * json)).

Fixpoint str_eqb (a b : pystr) : bool :=
  match a, b with
  | [], [] => true
  | x :: a', y :: b' => (x =? y)%N && str_eqb a' b'
  | _, _ => false
  end.

Fixpoint dict_get (d : list (pystr * json)) (key : pystr) : option json :=
  match d with
  | [] => None
  | (k, v) :: rest => if str_eqb k key then Some v else dict_get rest key
  end.

(** [bool(v)] *)
Definition py_truthy (v : json) : bool :=
  match v with
  | JNull => false
  | JBool b => b
  | JInt n => negb (n =? 0)
  | JFloat (S754_zero _) => false
  | JFloat _ => true
  | JStr s => negb (List.length s =? 0)%nat
  | JList l => negb (List.length l =? 0)%nat
  | JDict d => negb (List.length d =? 0)%nat
  end.

(** [v.get(key, default)]: only a [dict] has the method. *)
Definition py_get (v : json) (key : pystr) (default : json) : pyres json :=
  match v with
  | JDict d => Ok (match dict_get d key with Some x => x | None => default end)
  | _ => Raise AttributeError
  end.

(** [seq[i]] on a sequence of [n] items: a negative index counts from the
    end. *)
Definition seq_index {A : Type} (l : list A) (i : Z) : pyres A :=
  let n := Z.of_nat (List.length l) in
  let j := if i <? 0 then i + n else i in
  if (j <? 0) || (n <=? j) then Raise IndexError
  else match nth_error l (Z.to_nat j) with
       | Some x => Ok x
       | None => Raise IndexError
       end.

(** [v[i]] for an [int] index.  A JSON object has only [str] keys, so an
    [int] key is never found. *)
Definition py_getitem (v : json) (i : Z) : pyres json :=
  match v with
  | JList l => seq_index l i
  | JStr s => c <- seq_index s i ;; Ok (JStr [c])
  | JDict _ => Raise KeyError
  | _ => Raise TypeError
  end.

(** [v[:n]].  A [dict] rejects the slice key ([TypeError], the slice being
    unhashable). *)
Definition py_slice_to (n : nat) (v : json) : pyres json :=
  match v with
  | JList l => Ok (JList (firstn n l))
  | JStr s => Ok (JStr (slice_to n s))
  | _ => Raise TypeError
  end.

(** [iter(v)], run to the end. *)
Definition py_iter (v : json) : pyres (list json) :=
  match v with
  | JList l => Ok l
  | JStr s => Ok (map (fun c => JStr [c]) s)
  | JDict d => Ok (map (fun kv => JStr (fst kv)) d)
  | _ => Raise TypeError
  end.

(** [len(v)] *)
Definition py_len (v : json) : pyres Z :=
  match v with
  | JList l => Ok (Z.of_nat (List.length l))
  | JStr s => Ok (Z.of_nat (List.length s))
  | JDict d => Ok (Z.of_nat (List.length d))
  | _ => Raise TypeError
  end.

(** [int(x)] on a [float]: truncation toward zero. *)
Definition int_of_float (x : spec_float) : pyres Z :=
  match x with
  | S754_zero _ => Ok 0
  | S754_finite s m e =>
      let mag := if 0 <=? e then Z.pos m * 2 ^ e else Z.pos m / 2 ^ (- e) in
      Ok (if s then - mag else mag)
  | S754_infinity _ => Raise OverflowError
  | S754_nan => Raise ValueError
  end.

(** ** The network and the clock *)

(** What one HTTP request comes to: the request itself fails with an
    [aiohttp.ClientError], or a response arrives with its status, its body
    as text ([await response.text()]) and as JSON ([await response.json()]),
    either of which may still raise while the body is read. *)
Inductive http_outcome : Type :=
| ConnectionFailed (detail : pystr)
| Response (status : Z) (text : pyres pystr) (body : pyres json).

Inductive event : Type :=
| Get (url : pystr)
| Post (url : pystr) (payload : json)
| Sleep (seconds : Z).

(** The world a run acts on: [network n] is what the [n]-th request of the
    run comes to, [requests] counts the requests made so far, and [trace]
    records requests and sleeps in the order they happen. *)
Record world : Type := {
  network : nat -> http_outcome;
  requests : nat;
  trace : list event
}.

Definition io (A : Type) : Type := world -> pyres A * world.

Definition ret {A : Type} (a : A) : io A := fun w => (Ok a, w).
Definition raise {A : Type} (e : exn) : io A := fun w => (Raise e, w).
Definition lift {A : Type} (r : pyres A) : io A := fun w => (r, w).

Definition io_bind {A B : Type} (c : io A) (k : A -> io B) : io B :=
  fun w =>
    match c w with
    | (Ok a, w1) => k a w1
    | (Raise e, w1) => (Raise e, w1)
    end.

Notation "x <~ c ;; k" := (io_bind c (fun x => k))
  (at level 61, c at next level, right associativity).

Definition request (ev : event) (w : world) : http_outcome * world :=
  (network w (requests w),
   {| network := network w; requests := S (requests w); trace := trace w ++ [ev] |}).

Definition sleep (seconds : Z) (w : world) : world :=
  {| network := network w; requests := requests w;
     trace := trace w ++ [Sleep seconds] |}.

(** ** tenacity *)

(** The retry decorator of the tenacity library, for the three policies
    [_query] configures it with.  After an attempt that raised an exception
    the [retry] policy accepts, the call stops with [RetryError] (wrapping
    that last attempt; [reraise] is left at its default) once the attempt
    number has reached the stop count, and otherwise sleeps for
    [wait attempt_number] seconds and tries again.  Any other outcome of an
    attempt is the outcome of the call. *)
Module tenacity.

(** [wait_exponential(multiplier, min, max)] with [exp_base = 2]. *)
Definition wait_exponential (multiplier min max : Z) (attempt_number : nat) : Z :=
  Z.max (Z.max 0 min) (Z.min (multiplier * 2 ^ (Z.of_nat attempt_number - 1)) max).

Fixpoint retry_from {A : Type} (remaining attempt_number : nat)
    (wait : nat -> Z) (retry_on : exn -> bool) (fn : io A) : io A :=
  fun w =>
    let '(r, w1) := fn w in
    match r with
    | Ok _ => (r, w1)
    | Raise e =>
        if retry_on e then
          match remaining with
          | O => (Raise (RetryError e), w1)
          | S k =>
              retry_from k (S attempt_number) wait retry_on fn
                (sleep (wait attempt_number) w1)
          end
        else (r, w1)
    end.

(** [@retry(stop=stop_after_attempt(n), wait=..., retry=...)] *)
Definition retry {A : Type} (stop_after_attempt : nat)
    (wait : nat -> Z) (retry_on : exn -> bool) (fn : io A) : io A :=
  retry_from (stop_after_attempt - 1) 1 wait retry_on fn.

End tenacity.

(** ** config.py *)

(** The dataclass annotates [name] as [str] but stores whatever value it is
    given: discovery passes the API's JSON value through. *)
Record PostHogProject : Type := {
  name : json;
  project_id : pystr;
  color : Z;
  custom_events : list pystr
}.

(** The field [custom_events] of [ProjectMetrics] is named
    [metric_custom_events] here: a record field is a global projection, and
    [PostHogProject] has a field of that name already. *)
Record ProjectMetrics : Type := {
  dau : Z;
  wau : Z;
  mau : Z;
  pageviews_24h : Z;
  top_pages : list (pystr * Z);
  metric_custom_events : list (pystr * Z);
  prev_dau : option Z;
  prev_wau : option Z;
  prev_mau : option Z;
  prev_pageviews_24h : option Z;
  prev_custom_events : list (pystr * Z)
}.

(** ** posthog_client.py: the gateway *)

Definition PROJECT_COLORS : list Z :=
  [3447003; 10181046; 15844367; 3066993; 15105570; 3426654; 16776960; 9807270].

Record PostHogClient : Type := {
  base_url : pystr;
  session : bool
}.

Definition not_initialized : exn :=
  RuntimeError (u8 "Client not initialized. Use async context manager.").

Definition is_ClientError (e : exn) : bool :=
  match e with
  | ClientError _ => true
  | _ => false
  end.

(** The [async with ... as response] block of [_query]. *)
Definition read_response (o : http_outcome) : pyres json :=
  match o with
  | ConnectionFailed detail => Raise (ClientError detail)
  | Response status text body =>
      if status =? 429 then Raise (PostHogAPIError (u8 "Rate limited"))
      else if status >=? 400 then
        t <- text ;;
        Raise (PostHogAPIError
                 (u8 "API error " ++ str_of_int status ++ u8 ": " ++ slice_to 200 t))
      else body
  end.

Definition query_url (self : PostHogClient) (project_id : pystr) : pystr :=
  base_url self ++ u8 "/api/projects/" ++ project_id ++ u8 "/query/".

(** The body of [_query]: one attempt. *)
Definition query_attempt (self : PostHogClient) (project_id : pystr) (query : json)
  : io json :=
  fun w =>
    if negb (session self) then (Raise not_initialized, w)
    else
      let '(o, w1) :=
        request (Post (query_url self project_id) (JDict [(u8 "query", query)])) w in
      (read_response o, w1).

Definition _query (self : PostHogClient) (project_id : pystr) (query : json) : io json :=
  tenacity.retry 3 (tenacity.wait_exponential 1 2 10) is_ClientError
    (query_attempt self project_id query).

(** The query text of [_fetch_pageviews]; [date_from] is not read. *)
Definition pageviews_time_filter (date_to : pystr) : pystr :=
  if str_eqb date_to (u8 "now") then u8 "timestamp >= now() - INTERVAL 1 DAY"
  else u8 "timestamp >= now() - INTERVAL 8 DAY AND timestamp < now() - INTERVAL 7 DAY".

Definition pageviews_query (date_from date_to : pystr) : json :=
  let time_filter := pageviews_time_filter date_to in
  JDict
    [(u8 "kind", JStr (u8 "HogQLQuery"));
     (u8 "query",
      JStr (u8 "
                SELECT
                    properties.$current_url as page,
                    count() as views
                FROM events
                WHERE event = '$pageview'
                  AND " ++ time_filter ++ u8 "
                GROUP BY page
                ORDER BY views DESC
                LIMIT 10
            "))].

Section Builtins.

(** Two builtins are the interpreter's own and are left open: [int(s)] on
    a [str] ([None] when the text is not an integer literal, a
    [ValueError]) and [repr] of floats, lists and dicts.  Every statement
    below holds whatever they return. *)
Variable int_of_str : pystr -> option Z.
Variable repr_other : json -> pystr.

(** [int(v)] *)
Definition py_int (v : json) : pyres Z :=
  match v with
  | JNull => Raise TypeError
  | JBool b => Ok (if b then 1 else 0)
  | JInt n => Ok n
  | JFloat x => int_of_float x
  | JStr s => match int_of_str s with
              | Some n => Ok n
              | None => Raise ValueError
              end
  | JList _ | JDict _ => Raise TypeError
  end.

(** [str(v)] *)
Definition py_str (v : json) : pystr :=
  match v with
  | JNull => u8 "None"
  | JBool true => u8 "True"
  | JBool false => u8 "False"
  | JInt n => str_of_int n
  | JStr s => s
  | _ => repr_other v
  end.

(** ** posthog_client.py: reading a trend response *)

Definition extract_trend_value_try (result : json) : pyres Z :=
  results <- py_get result (u8 "results") (JList [JDict []]) ;;
  first <- py_getitem results 0 ;;
  data <- py_get first (u8 "data") (JList []) ;;
  if py_truthy data then
    last <- py_getitem data (-1) ;;
    py_int last
  else Ok 0.

(** The [try] body with its handler: [except (KeyError, IndexError,
    TypeError): return 0]. *)
Definition _extract_trend_value (result : json) : pyres Z :=
  match extract_trend_value_try result with
  | Raise KeyError | Raise IndexError | Raise TypeError => Ok 0
  | r => r
  end.

(** ** posthog_client.py: reading a pageview response *)

(** [[(str(r[0])[:50], int(r[1])) for r in rows if r[0]]] *)
Fixpoint top_pages_of (rows : list json) : pyres (list (pystr * Z)) :=
  match rows with
  | [] => Ok []
  | r :: rest =>
      url <- py_getitem r 0 ;;
      if py_truthy url then
        page <- py_getitem r 0 ;;
        views <- py_getitem r 1 ;;
        n <- py_int views ;;
        tl <- top_pages_of rest ;;
        Ok ((slice_to 50 (py_str page), n) :: tl)
      else top_pages_of rest
  end.

(** [sum(int(r[1]) for r in rows if len(r) > 1)], from the running total
    [acc]. *)
Fixpoint sum_views (rows : list json) (acc : Z) : pyres Z :=
  match rows with
  | [] => Ok acc
  | r :: rest =>
      n <- py_len r ;;
      if n >? 1 then
        views <- py_getitem r 1 ;;
        v <- py_int views ;;
        sum_views rest (acc + v)
      else sum_views rest acc
  end.

(** The lines of [_fetch_pageviews] after the query returns. *)
Definition pageviews_of_result (result : json)
  : pyres (Z * list (pystr * Z)) :=
  results <- py_get result (u8 "results") (JList []) ;;
  first5 <- py_slice_to 5 results ;;
  rows5 <- py_iter first5 ;;
  top_pages <- top_pages_of rows5 ;;
  rows <- py_iter results ;;
  total_pageviews <- sum_views rows 0 ;;
  Ok (total_pageviews, top_pages).

Definition _fetch_pageviews (self : PostHogClient)
    (project_id date_from date_to : pystr) : io (Z * list (pystr * Z)) :=
  result <~ _query self project_id (pageviews_query date_from date_to) ;;
  lift (pageviews_of_result result).

(** ** posthog_client.py: project discovery *)

(** The loop of [discover_projects] from position [i] on, appending to
    [projects]. *)
Fixpoint discover_loop (i : nat) (entries : list json)
    (projects : list PostHogProject) : pyres (list PostHogProject) :=
  match entries with
  | [] => Ok projects
  | project :: rest =>
      id <- py_get project (u8 "id") (JStr []) ;;
      let project_id := py_str id in
      name <- py_get project (u8 "name") (JStr (u8 "Project " ++ project_id)) ;;
      if py_truthy (JStr project_id) then
        discover_loop (S i) rest
          (projects ++
             [{| name := name;
                 project_id := project_id;
                 color := nth (i mod List.length PROJECT_COLORS) PROJECT_COLORS 0;
                 custom_events := [] |}])
      else discover_loop (S i) rest projects
  end.

(** [data.get("results", data) if isinstance(data, dict) else data] *)
Definition discovery_results (data : json) : json :=
  match data with
  | JDict d => match dict_get d (u8 "results") with
               | Some r => r
               | None => data
               end
  | _ => data
  end.

(** The lines of [discover_projects] after the response is decoded. *)
Definition projects_of_data (data : json) : pyres (list PostHogProject) :=
  entries <- py_iter (discovery_results data) ;;
  discover_loop 0 entries [].

Definition discover_projects (self : PostHogClient) : io (list PostHogProject) :=
  fun w =>
    if negb (session self) then (Raise not_initialized, w)
    else
      let url := base_url self ++ u8 "/api/projects/" in
      let '(o, w1) := request (Get url) w in
      match o with
      | ConnectionFailed detail => (Raise (ClientError detail), w1)
      | Response status text body =>
          if status >=? 400 then
            (t <- text ;;
             Raise (PostHogAPIError
                      (u8 "Failed to list projects: " ++ str_of_int status
                         ++ u8 " - " ++ slice_to 200 t)),
             w1)
          else (data <- body ;; projects_of_data data, w1)
      end.

End Builtins.

(** ** discord_client.py *)

Definition newline : codepoint := 10%N.

(** [str.isspace] for one character, the set [rstrip()] removes. *)
Definition isspace (c : codepoint) : bool :=
  ((9 <=? c) && (c <=? 13) || (28 <=? c) && (c <=? 32)
   || (c =? 133) || (c =? 160) || (c =? 5760)
   || (8192 <=? c) && (c <=? 8202)
   || (c =? 8232) || (c =? 8233) || (c =? 8239) || (c =? 8287) || (c =? 12288))%N.

Fixpoint lstrip (s : pystr) : pystr :=
  match s with
  | c :: rest => if isspace c then lstrip rest else s
  | [] => []
  end.

(** [s.rstrip()] *)
Definition rstrip (s : pystr) : pystr := List.rev (lstrip (List.rev s)).

(** [s.split(sep)] for a one-character separator. *)
Fixpoint split (sep : codepoint) (s : pystr) : list pystr :=
  match s with
  | [] => [[]]
  | c :: rest =>
      if (c =? sep)%N then [] :: split sep rest
      else match split sep rest with
           | line :: lines => (c :: line) :: lines
           | [] => [[c]]
           end
  end.

Definition len (s : pystr) : Z := Z.of_nat (List.length s).

(** The [for line in lines] loop of [_split_message], with its two
    variables. *)
Fixpoint split_loop (max_length : Z) (lines : list pystr)
    (chunks : list pystr) (current_chunk : pystr) : list pystr * pystr :=
  match lines with
  | [] => (chunks, current_chunk)
  | line :: rest =>
      if len current_chunk + len line + 1 >? max_length then
        split_loop max_length rest
          (if negb (List.length current_chunk =? 0)%nat
           then chunks ++ [rstrip current_chunk] else chunks)
          (line ++ [newline])
      else split_loop max_length rest chunks (current_chunk ++ line ++ [newline])
  end.

Definition _split_message (message : pystr) (max_length : Z) : list pystr :=
  if len message <=? max_length then [message]
  else
    let lines := split newline message in
    let '(chunks, current_chunk) := split_loop max_length lines [] [] in
    if negb (List.length current_chunk =? 0)%nat
    then chunks ++ [rstrip current_chunk] else chunks.

(** ** main.py *)

Section Main.

(** The collector is the client's [fetch_project_metrics]; the loop of
    [main] is stated for any behaviour of it.  [str_of_exn] is [str(e)]. *)
Variable fetch_project_metrics : PostHogProject -> io ProjectMetrics.
Variable str_of_exn : exn -> pystr.

(** [isinstance(e, Exception)]: everything but the bare [BaseException]s
    (cancellation, keyboard interrupt, exit). *)
Definition is_Exception (e : exn) : bool :=
  match e with
  | BaseException _ => false
  | _ => true
  end.

(** The [for project in projects] loop of [main], with its two
    accumulators. *)
Fixpoint collect (projects : list PostHogProject)
    (results : list (PostHogProject * ProjectMetrics))
    (errors : list (PostHogProject * pystr))
  : io (list (PostHogProject * ProjectMetrics) * list (PostHogProject * pystr)) :=
  match projects with
  | [] => ret (results, errors)
  | project :: rest =>
      fun w =>
        match fetch_project_metrics project w with
        | (Ok metrics, w1) => collect rest (results ++ [(project, metrics)]) errors w1
        | (Raise (PostHogAPIError _ as e), w1) =>
            collect rest results (errors ++ [(project, str_of_exn e)]) w1
        | (Raise e, w1) =>
            if is_Exception e
            then collect rest results (errors ++ [(project, str_of_exn e)]) w1
            else (Raise e, w1)
        end
  end.

(** What each fetch of the loop comes to, in order: the world a fetch
    leaves, whether it returned or raised, is the one the next fetch
    starts in. *)
Fixpoint outcomes (projects : list PostHogProject) (w : world)
  : list (PostHogProject * pyres ProjectMetrics) :=
  match projects with
  | [] => []
  | project :: rest =>
      let '(r, w1) := fetch_project_metrics project w in
      (project, r) :: outcomes rest w1
  end.

(** The projects whose fetch returned, with their metrics. *)
Definition successes (outs : list (PostHogProject * pyres ProjectMetrics))
  : list (PostHogProject * ProjectMetrics) :=
  flat_map (fun o => match snd o with Ok m => [(fst o, m)] | Raise _ => [] end) outs.

(** The projects whose fetch raised, with the message of the error. *)
Definition failures (outs : list (PostHogProject * pyres ProjectMetrics))
  : list (PostHogProject * pystr) :=
  flat_map (fun o => match snd o with
                     | Ok _ => []
                     | Raise e => [(fst o, str_of_exn e)]
                     end) outs.

End Main.

(** A fetch returned, or raised an error (an [Exception]). *)
Definition is_error (r : pyres ProjectMetrics) : Prop :=
  match r with
  | Ok _ => True
  | Raise e => is_Exception e = true
  end.

(** [p] stands in [l] once, paired with [a]. *)
Definition once {A : Type} (p : PostHogProject) (a : A)
    (l : list (PostHogProject * A)) : Prop :=
  exists l1 l2, l = l1 ++ (p, a) :: l2
                /\ ~ In p (map fst l1) /\ ~ In p (map fst l2).

(** ** formatters.py: the sections of the digest *)

Definition COLOR_EMOJIS : list (Z * pystr) :=
  [(3447003, [128309%N]);     (* "\U0001f535", blue *)
   (10181046, [128995%N]);    (* "\U0001f7e3", purple *)
   (15844367, [128993%N]);    (* "\U0001f7e1", gold *)
   (3066993, [128994%N]);     (* "\U0001f7e2", green *)
   (15158332, [128308%N])].   (* "\U0001f534", red *)

(** [d.get(key, default)] on the colour table. *)
Fixpoint emoji_get (d : list (Z * pystr)) (key : Z) (default : pystr) : pystr :=
  match d with
  | [] => default
  | (k, v) :: rest => if k =? key then v else emoji_get rest key default
  end.

(** [sep.join(lines)] *)
Fixpoint join (sep : pystr) (lines : list pystr) : pystr :=
  match lines with
  | [] => []
  | line :: rest =>
      match rest with
      | [] => line
      | _ :: _ => line ++ sep ++ join sep rest
      end
  end.

(** [sum(values)] *)
Definition py_sum (values : list Z) : Z := fold_left Z.add values 0.

(** A [dict[str, int]], its items in insertion order: [d.get(key)] and
    [d[key] = value]. *)
Fixpoint counts_get (d : list (pystr * Z)) (key : pystr) : option Z :=
  match d with
  | [] => None
  | (k, v) :: rest => if str_eqb k key then Some v else counts_get rest key
  end.

Fixpoint counts_set (d : list (pystr * Z)) (key : pystr) (value : Z)
  : list (pystr * Z) :=
  match d with
  | [] => [(key, value)]
  | (k, v) :: rest =>
      if str_eqb k key then (k, value) :: rest
      else (k, v) :: counts_set rest key value
  end.

Definition format_metric_row (label : pystr) (current : Z) (previous : option Z)
  : pyres pystr :=
  change <- format_change current previous ;;
  Ok (label ++ u8 ": " ++ change).

(** [page if len(page) <= 40 else page[:37] + "..."] *)
Definition display_page (page : pystr) : pystr :=
  if len page <=? 40 then page else slice_to 37 page ++ u8 "...".

(** One line of the "Top Pages" list; [8594] is "→", the arrow. *)
Definition page_line (page_views : pystr * Z) : pystr :=
  u8 "  " ++ display_page (fst page_views) ++ u8 " " ++ [8594%N] ++ u8 " "
    ++ format_number (snd page_views).

(** The lines of the "Custom Events" list: one per item of
    [metrics.custom_events], with [metrics.prev_custom_events.get(event)]
    as the previous count. *)
Fixpoint event_lines (events prev : list (pystr * Z)) : pyres (list pystr) :=
  match events with
  | [] => Ok []
  | (event, count) :: rest =>
      change <- format_change count (counts_get prev event) ;;
      lines <- event_lines rest prev ;;
      Ok ((u8 "  " ++ event ++ u8 ": " ++ change) :: lines)
  end.

(** [m.prev_dau or 0] *)
Definition or_zero (v : option Z) : Z :=
  match v with
  | Some n => if n =? 0 then 0 else n
  | None => 0
  end.

(** ["─" * 30] *)
Definition rule : pystr := repeat 9472%N 30.

Section Formatters.

(** [f"{project.name}"] is [str] of whatever value the name holds. *)
Variable repr_other : json -> pystr.

Definition format_project_section (project : PostHogProject)
    (metrics : ProjectMetrics) : pyres pystr :=
  let emoji := emoji_get COLOR_EMOJIS (color project) [9898%N] in
  let title := emoji ++ u8 " **" ++ py_str repr_other (name project) ++ u8 "**" in
  d <- format_change (dau metrics) (prev_dau metrics) ;;
  w <- format_change (wau metrics) (prev_wau metrics) ;;
  m <- format_change (mau metrics) (prev_mau metrics) ;;
  p <- format_change (pageviews_24h metrics) (prev_pageviews_24h metrics) ;;
  let lines :=
    [title; [];
     u8 "DAU: " ++ d; u8 "WAU: " ++ w; u8 "MAU: " ++ m;
     [];
     u8 "Pageviews: " ++ p] in
  let lines :=
    match top_pages metrics with
    | [] => lines
    | _ :: _ =>
        lines ++ [[]; u8 "Top Pages:"]
          ++ map page_line (firstn 5 (top_pages metrics))
    end in
  lines <- match metric_custom_events metrics with
           | [] => Ok lines
           | _ :: _ =>
               events <- event_lines (metric_custom_events metrics)
                           (prev_custom_events metrics) ;;
               Ok (lines ++ [[]; u8 "Custom Events:"] ++ events)
           end ;;
  Ok (join [newline] lines).

Definition format_error_section (project : PostHogProject) (error : pystr) : pystr :=
  [128308%N] ++ u8 " **" ++ py_str repr_other (name project) ++ u8 "** - ERROR"
    ++ [newline] ++ u8 "  " ++ slice_to 100 error.

(** [128202] is "\U0001f4ca". *)
Definition format_summary (results : list (PostHogProject * ProjectMetrics))
  : pyres pystr :=
  match results with
  | [] => Ok []
  | _ :: _ =>
      let total_dau := py_sum (map (fun pm => dau (snd pm)) results) in
      let total_prev_dau := py_sum (map (fun pm => or_zero (prev_dau (snd pm))) results) in
      let total_pageviews := py_sum (map (fun pm => pageviews_24h (snd pm)) results) in
      let total_prev_pageviews :=
        py_sum (map (fun pm => or_zero (prev_pageviews_24h (snd pm))) results) in
      d <- format_change total_dau
             (if total_prev_dau >? 0 then Some total_prev_dau else None) ;;
      p <- format_change total_pageviews
             (if total_prev_pageviews >? 0 then Some total_prev_pageviews else None) ;;
      Ok (join [newline]
            [[128202%N] ++ u8 " **Summary (All Projects)**";
             u8 "Total DAU: " ++ d;
             u8 "Total Pageviews: " ++ p])
  end.

(** The [for project, metrics in results] loop of [format_digest]. *)
Fixpoint project_sections (results : list (PostHogProject * ProjectMetrics))
  : pyres (list pystr) :=
  match results with
  | [] => Ok []
  | (project, metrics) :: rest =>
      section <- format_project_section project metrics ;;
      lines <- project_sections rest ;;
      Ok (rule :: section :: lines)
  end.

(** [date_str] is what the clock gives,
    [datetime.now(timezone.utc).strftime("%Y-%m-%d")]; [128200] is
    "\U0001f4c8". *)
Definition format_digest (date_str : pystr)
    (results : list (PostHogProject * ProjectMetrics))
    (errors : list (PostHogProject * pystr)) : pyres pystr :=
  let lines :=
    [[128200%N] ++ u8 " **Daily Analytics Digest** - " ++ date_str;
     u8 "_Week-over-week comparison (vs 7 days ago)_";
     []] in
  lines <- match results with
           | [] => Ok lines
           | _ :: _ => summary <- format_summary results ;; Ok (lines ++ [summary; []])
           end ;;
  sections <- project_sections results ;;
  let lines :=
    lines ++ sections
      ++ flat_map (fun pe => [rule; format_error_section (fst pe) (snd pe)]) errors
      ++ [rule] in
  Ok (join [newline] lines).

End Formatters.

(** ** posthog_client.py: the metrics of a project *)

Definition trends_query (event math date_from date_to : pystr) : json :=
  JDict
    [(u8 "kind", JStr (u8 "TrendsQuery"));
     (u8 "series",
      JList [JDict [(u8 "kind", JStr (u8 "EventsNode"));
                    (u8 "event", JStr event);
                    (u8 "math", JStr math)]]);
     (u8 "dateRange",
      JDict [(u8 "date_from", JStr date_from); (u8 "date_to", JStr date_to)])].

Definition custom_events_query (limit : Z) : json :=
  JDict
    [(u8 "kind", JStr (u8 "HogQLQuery"));
     (u8 "query",
      JStr (u8 "
                SELECT
                    event,
                    count() as count
                FROM events
                WHERE timestamp >= now() - INTERVAL 7 DAY
                  AND event NOT LIKE '$%'
                  AND event NOT LIKE '!%'
                GROUP BY event
                ORDER BY count DESC
                LIMIT " ++ str_of_int limit ++ u8 "
            "))].

(** The float [0.3]. *)
Definition three_tenths : spec_float := S754_finite false 5404319552844595 (-54).

Section Metrics.

Variable int_of_str : pystr -> option Z.
Variable repr_other : json -> pystr.

(** [asyncio.sleep(delay)], the pause between projects, is the event
    loop's: it is left open, and what a statement needs of it is a
    hypothesis there. *)
Variable asyncio_sleep : spec_float -> io unit.

Definition _fetch_active_users (self : PostHogClient)
    (project_id math date_from date_to : pystr) : io Z :=
  result <~ _query self project_id
              (trends_query (u8 "$pageview") math date_from date_to) ;;
  lift (_extract_trend_value int_of_str result).

Definition _fetch_event_count (self : PostHogClient)
    (project_id event_name date_from date_to : pystr) : io Z :=
  result <~ _query self project_id
              (trends_query event_name (u8 "total") date_from date_to) ;;
  lift (_extract_trend_value int_of_str result).

(** [[str(r[0]) for r in rows if r[0]]] *)
Fixpoint event_names_of (rows : list json) : pyres (list pystr) :=
  match rows with
  | [] => Ok []
  | r :: rest =>
      first <- py_getitem r 0 ;;
      if py_truthy first then
        cell <- py_getitem r 0 ;;
        names <- event_names_of rest ;;
        Ok (py_str repr_other cell :: names)
      else event_names_of rest
  end.

(** The [try] body of [_discover_custom_events]. *)
Definition discover_custom_events_try (self : PostHogClient)
    (project_id : pystr) (limit : Z) : io (list pystr) :=
  result <~ _query self project_id (custom_events_query limit) ;;
  lift (results <- py_get result (u8 "results") (JList []) ;;
        rows <- py_iter results ;;
        event_names_of rows).

(** The body with its handler: [except Exception: return []]. *)
Definition _discover_custom_events (self : PostHogClient)
    (project_id : pystr) (limit : Z) : io (list pystr) :=
  fun w =>
    match discover_custom_events_try self project_id limit w with
    | (Ok events, w1) => (Ok events, w1)
    | (Raise e, w1) => if is_Exception e then (Ok [], w1) else (Raise e, w1)
    end.

(** The [for event_name in event_names] loop of [fetch_project_metrics],
    with its two dictionaries. *)
Fixpoint fetch_event_counts (self : PostHogClient) (project_id : pystr)
    (event_names : list pystr) (custom_events prev_custom_events : list (pystr * Z))
  : io (list (pystr * Z) * list (pystr * Z)) :=
  match event_names with
  | [] => ret (custom_events, prev_custom_events)
  | event_name :: rest =>
      count <~ _fetch_event_count self project_id event_name (u8 "-1d") (u8 "now") ;;
      prev_count <~ _fetch_event_count self project_id event_name
                      (u8 "-8d") (u8 "-7d") ;;
      fetch_event_counts self project_id rest
        (counts_set custom_events event_name count)
        (counts_set prev_custom_events event_name prev_count)
  end.

Definition fetch_project_metrics (self : PostHogClient) (project : PostHogProject)
  : io ProjectMetrics :=
  _ <~ asyncio_sleep three_tenths ;;
  dau <~ _fetch_active_users self (project_id project)
           (u8 "dau") (u8 "-1d") (u8 "now") ;;
  wau <~ _fetch_active_users self (project_id project)
           (u8 "weekly_active") (u8 "-7d") (u8 "now") ;;
  mau <~ _fetch_active_users self (project_id project)
           (u8 "monthly_active") (u8 "-30d") (u8 "now") ;;
  pageviews <~ _fetch_pageviews int_of_str repr_other self (project_id project)
                 (u8 "-1d") (u8 "now") ;;
  prev_dau <~ _fetch_active_users self (project_id project)
                (u8 "dau") (u8 "-8d") (u8 "-7d") ;;
  prev_wau <~ _fetch_active_users self (project_id project)
                (u8 "weekly_active") (u8 "-14d") (u8 "-7d") ;;
  prev_mau <~ _fetch_active_users self (project_id project)
                (u8 "monthly_active") (u8 "-60d") (u8 "-30d") ;;
  prev_pageviews <~ _fetch_pageviews int_of_str repr_other self (project_id project)
                      (u8 "-8d") (u8 "-7d") ;;
  event_names <~ match custom_events project with
                 | [] => _discover_custom_events self (project_id project) 10
                 | _ :: _ => ret (custom_events project)
                 end ;;
  events <~ fetch_event_counts self (project_id project) event_names [] [] ;;
  ret {| dau := dau;
         wau := wau;
         mau := mau;
         pageviews_24h := fst pageviews;
         top_pages := snd pageviews;
         metric_custom_events := fst events;
         prev_dau := Some prev_dau;
         prev_wau := Some prev_wau;
         prev_mau := Some prev_mau;
         prev_pageviews_24h := Some (fst prev_pageviews);
         prev_custom_events := snd events |}.

End Metrics.

(** ** config.py and the clients' construction *)

Record Config : Type := {
  posthog_api_key : pystr;
  posthog_region : pystr;
  discord_bot_token : pystr;
  discord_user_id : Z;
  projects : list PostHogProject
}.

(** [PostHogClient(config)]: no session yet. *)
Definition PostHogClient__init__ (config : Config) : PostHogClient :=
  {| base_url := u8 "https://" ++ posthog_region config ++ u8 ".posthog.com";
     session := false |}.

(** [async with ... as posthog]: entering opens the session. *)
Definition PostHogClient__aenter__ (self : PostHogClient) : PostHogClient :=
  {| base_url := base_url self; session := true |}.

(** ** discord_client.py: sending the digest *)

(** The calls [send_dm] makes on the discord library, as the library sees
    them. *)
Inductive discord_call : Type :=
| Login (token : pystr)
| FetchUser (user_id : Z)
| CreateDm
| Send (content : pystr)
| Close.

(** The Discord side of a run: [api n] is what the [n]-th call on the
    library comes to (it returns, or raises), and [calls] records the calls
    in the order they are made. *)
Record discord : Type := {
  api : nat -> pyres unit;
  calls : list discord_call
}.

Definition call (c : discord_call) (d : discord) : pyres unit * discord :=
  (api d (List.length (calls d)), {| api := api d; calls := calls d ++ [c] |}).

(** The [for chunk in chunks] loop of [send_dm]. *)
Fixpoint send_chunks (chunks : list pystr) (d : discord) : pyres unit * discord :=
  match chunks with
  | [] => (Ok tt, d)
  | chunk :: rest =>
      match call (Send chunk) d with
      | (Ok _, d1) => send_chunks rest d1
      | (Raise e, d1) => (Raise e, d1)
      end
  end.

(** The [try] body of [send_dm]. *)
Definition send_dm_try (config : Config) (message : pystr) (d : discord)
  : pyres unit * discord :=
  match call (FetchUser (discord_user_id config)) d with
  | (Raise e, d1) => (Raise e, d1)
  | (Ok _, d1) =>
      match call CreateDm d1 with
      | (Raise e, d2) => (Raise e, d2)
      | (Ok _, d2) => send_chunks (_split_message message 1900) d2
      end
  end.

(** [login], then the body with [finally: await self.client.close()]: an
    exception of [close] replaces the outcome of the body. *)
Definition send_dm (config : Config) (message : pystr) (d : discord)
  : pyres unit * discord :=
  match call (Login (discord_bot_token config)) d with
  | (Raise e, d1) => (Raise e, d1)
  | (Ok _, d1) =>
      let '(r, d2) := send_dm_try config message d1 in
      match call Close d2 with
      | (Raise e, d3) => (Raise e, d3)
      | (Ok _, d3) => (r, d3)
      end
  end.

(** ** main.py: the run *)

Section Program.

Variable int_of_str : pystr -> option Z.
Variable repr_other : json -> pystr.
Variable asyncio_sleep : spec_float -> io unit.
Variable str_of_exn : exn -> pystr.

(** [main()], with what [Config.from_env()] comes to and the date the clock
    gives as inputs; the result is the exit code. *)
Definition main (from_env : pyres Config) (date_str : pystr)
    (w : world) (d : discord) : pyres Z * world * discord :=
  match from_env with
  | Raise KeyError => (Ok 1, w, d)
  | Raise e => (Raise e, w, d)
  | Ok config =>
      let posthog := PostHogClient__aenter__ (PostHogClient__init__ config) in
      let '(found, w1) :=
        match projects config with
        | [] => discover_projects repr_other posthog w
        | _ :: _ => (Ok (projects config), w)
        end in
      match found with
      | Raise (PostHogAPIError _) => (Ok 1, w1, d)
      | Raise e => (Raise e, w1, d)
      | Ok [] => (Ok 1, w1, d)
      | Ok ((_ :: _) as found_projects) =>
          match collect (fetch_project_metrics int_of_str repr_other asyncio_sleep posthog)
                  str_of_exn found_projects [] [] w1 with
          | (Raise e, w2) => (Raise e, w2, d)
          | (Ok (results, errors), w2) =>
              match results, errors with
              | [], [] => (Ok 0, w2, d)
              | _, _ =>
                  match format_digest repr_other date_str results errors with
                  | Raise e => (Raise e, w2, d)
                  | Ok message =>
                      match send_dm config message d with
                      | (Ok _, d1) => (Ok 0, w2, d1)
                      | (Raise e, d1) =>
                          if is_Exception e then (Ok 1, w2, d1)
                          else (Raise e, w2, d1)
                      end
                  end
              end
          end
      end
  end.

End Program.

(** * The vocabulary of the statements *)

(** ** Change rendering *)





(** ** Retries *)

(** An attempt ended in an exception the retry policy accepts. *)
Definition retryable (r : pyres json) : bool :=
  match r with
  | Raise e => is_ClientError e
  | Ok _ => false
  end.

(** What the [i]-th attempt of a call started in [w] comes to. *)
Definition attempt (w : world) (i : nat) : pyres json :=
  read_response (network w (requests w + i)%nat).

(** The world after a call started in [w] made one request [post] and then,
    for each wait in [waits], slept and made the request again. *)
Definition attempted (w : world) (post : event) (waits : list Z) : world :=
  {| network := network w;
     requests := (requests w + S (List.length waits))%nat;
     trace := trace w ++ post :: flat_map (fun s => [Sleep s; post]) waits |}.

Definition exhausted (r : pyres json) : pyres json :=
  match r with
  | Raise e => Raise (RetryError e)
  | Ok _ => r
  end.

Fixpoint starts_with (prefix s : pystr) : bool :=
  match prefix, s with
  | [], _ => true
  | a :: prefix', b :: s' => (a =? b)%N && starts_with prefix' s'
  | _ :: _, [] => false
  end.

(** [needle in s] *)
Fixpoint contains (needle s : pystr) : bool :=
  starts_with needle s
  || match s with
     | [] => false
     | _ :: s' => contains needle s'
     end.

(** ** Pageview tables *)

Definition previous_window_filter : pystr :=
  u8 "timestamp >= now() - INTERVAL 8 DAY AND timestamp < now() - INTERVAL 7 DAY".

Definition sum_Z (l : list Z) : Z := fold_right Z.add 0 l.

Definition by_views_desc {A : Type} (x y : A * Z) : Prop := snd x >= snd y.

Section Tables.

Variable int_of_str : pystr -> option Z.
Variable repr_other : json -> pystr.

(** A row as the raw query returns it, [[url, views, ...]], read as its URL
    cell and the integer its views cell converts to. *)
Definition row_reads (r : json) (uv : json * Z) : Prop :=
  exists cell extra,
    r = JList (fst uv :: cell :: extra) /\ py_int int_of_str cell = Ok (snd uv).

Definition page_of (uv : json * Z) : pystr * Z :=
  (slice_to 50 (py_str repr_other (fst uv)), snd uv).

Definition has_url (uv : json * Z) : bool := py_truthy (fst uv).

(** The spec's wording, read as it stands: "the first 5 rows whose URL
    field is non-empty". *)
Definition first_five_with_url (table : list (json * Z)) : list (pystr * Z) :=
  map page_of (firstn 5 (filter has_url table)).

(** ** Project listings *)

Definition entry_id (entry : list (pystr * json)) : pystr :=
  py_str repr_other
    (match dict_get entry (u8 "id") with Some v => v | None => JStr [] end).

Definition entry_name (entry : list (pystr * json)) : json :=
  match dict_get entry (u8 "name") with
  | Some v => v
  | None => JStr (u8 "Project " ++ entry_id entry)
  end.

Definition has_id (entry : list (pystr * json)) : bool :=
  py_truthy (JStr (entry_id entry)).

Definition project_at (ie : nat * list (pystr * json)) : PostHogProject :=
  {| name := entry_name (snd ie);
     project_id := entry_id (snd ie);
     color := nth (fst ie mod 8) PROJECT_COLORS 0;
     custom_events := [] |}.

End Tables.

Definition enumerate_from {A : Type} (start : nat) (l : list A) : list (nat * A) :=
  combine (seq start (List.length l)) l.

(** The entries of a listing that discovery keeps, each with its position
    in the listing. *)
Definition kept_entries (repr_other : json -> pystr)
    (entries : list (list (pystr * json))) : list (nat * list (pystr * json)) :=
  filter (fun ie => has_id repr_other (snd ie)) (enumerate_from 0 entries).

(** ** Message chunks *)

Definition ends_with_newline (s : pystr) : Prop := exists s0, s = s0 ++ [newline].

Definition all_space (s : pystr) : Prop := Forall (fun c => isspace c = true) s.


(** ** The requests of a project *)

(** The world [n] requests later, [events] being what was added to the
    trace meanwhile. *)
Definition advanced (w : world) (n : nat) (events : list event) : world :=
  {| network := network w;
     requests := (requests w + n)%nat;
     trace := trace w ++ events |}.

(** The POST that carries a query. *)
Definition post_of (self : PostHogClient) (project_id : pystr) (query : json) : event :=
  Post (query_url self project_id) (JDict [(u8 "query", query)]).

(** A computation makes at most [n] requests, whatever it returns, and
    leaves the network as it is. *)
Definition costs {A : Type} (c : io A) (n : nat) : Prop :=
  forall w,
    network (snd (c w)) = network w
    /\ (requests w <= requests (snd (c w)) <= requests w + n)%nat.

(** A pause returns and makes no request. *)
Definition pauses (asyncio_sleep : spec_float -> io unit) : Prop :=
  forall s w, exists w',
    asyncio_sleep s w = (Ok tt, w')
    /\ network w' = network w /\ requests w' = requests w.

(** The queries [fetch_project_metrics] posts for a project, in order: the
    eight of the core metrics, then two for each event name. *)
Definition project_queries (event_names : list pystr) : list json :=
  [trends_query (u8 "$pageview") (u8 "dau") (u8 "-1d") (u8 "now");
   trends_query (u8 "$pageview") (u8 "weekly_active") (u8 "-7d") (u8 "now");
   trends_query (u8 "$pageview") (u8 "monthly_active") (u8 "-30d") (u8 "now");
   pageviews_query (u8 "-1d") (u8 "now");
   trends_query (u8 "$pageview") (u8 "dau") (u8 "-8d") (u8 "-7d");
   trends_query (u8 "$pageview") (u8 "weekly_active") (u8 "-14d") (u8 "-7d");
   trends_query (u8 "$pageview") (u8 "monthly_active") (u8 "-60d") (u8 "-30d");
   pageviews_query (u8 "-8d") (u8 "-7d")]
  ++ flat_map (fun event_name =>
                 [trends_query event_name (u8 "total") (u8 "-1d") (u8 "now");
                  trends_query event_name (u8 "total") (u8 "-8d") (u8 "-7d")])
       event_names.

(** A row of a query result with a first cell: [[cell, ...]]. *)
Definition row_of (cell_extra : json * list json) : json :=
  JList (fst cell_extra :: snd cell_extra).

(** ** Digits *)

Definition is_digit (c : codepoint) : bool := ((48 <=? c) && (c <=? 57))%N.

Definition comma : codepoint := 44%N.

(** ** Discord calls *)

(** [l1] is the beginning of [l2]. *)
Definition prefix_of {A : Type} (l1 l2 : list A) : Prop := exists rest, l2 = l1 ++ rest.

(** What the body of [send_dm] calls when nothing fails. *)
Definition delivery (config : Config) (message : pystr) : list discord_call :=
  [FetchUser (discord_user_id config); CreateDm]
    ++ map Send (_split_message message 1900).

(** ** Chunks and errors *)

(** A string that does not end in white space. *)
Definition ends_trimmed (s : pystr) : Prop :=
  forall r c, s = r ++ [c] -> isspace c = false.

(** The message of the error that a response of status 400 or more, with
    the body text [t], is turned into. *)
Definition http_error_message (status : Z) (t : pystr) : pystr :=
  if status =? 429 then u8 "Rate limited"
  else u8 "API error " ++ str_of_int status ++ u8 ": " ++ slice_to 200 t.

(** * Sample inputs *)

Definition sample_client : PostHogClient :=
  {| base_url := u8 "https://eu.posthog.com"; session := true |}.

(** A network on which every request fails to connect. *)
Definition unreachable : world :=
  {| network := fun _ => ConnectionFailed (u8 "Cannot connect to host");
     requests := 0;
     trace := [] |}.

(** A network that answers every request with the given status and body. *)
Definition answering (status : Z) (text : pystr) : world :=
  {| network := fun _ => Response status (Ok text) (Ok JNull);
     requests := 0;
     trace := [] |}.

(** A network that answers every request with the given status and drops
    the connection while the body is read. *)
Definition answering_unreadable (status : Z) : world :=
  {| network := fun _ =>
       Response status
         (Raise (ClientError (u8 "Response payload is not completed")))
         (Raise (ClientError (u8 "Response payload is not completed")));
     requests := 0;
     trace := [] |}.

(** A project listing of three entries, the second with no id. *)
Definition sample_listing : list (list (pystr * json)) :=
  [[(u8 "id", JInt 1); (u8 "name", JStr (u8 "Alpha"))];
   [(u8 "name", JStr (u8 "Beta"))];
   [(u8 "id", JInt 3); (u8 "name", JStr (u8 "Gamma"))]].

(** A pageview response whose first row has no URL. *)
Definition sample_rows_null_first : list (json * Z) :=
  [(JNull, 10); (JStr (u8 "/a"), 9); (JStr (u8 "/b"), 8); (JStr (u8 "/c"), 7);
   (JStr (u8 "/d"), 6); (JStr (u8 "/e"), 5)].

(** A pageview response whose rows are not in descending order. *)
Definition sample_rows_unsorted : list (json * Z) :=
  [(JStr (u8 "/a"), 1); (JStr (u8 "/b"), 2)].

Definition response_of (table : list (json * Z)) : json :=
  JDict [(u8 "results", JList (map (fun uv => JList [fst uv; JInt (snd uv)]) table))].

(** A trend response with one series of three points. *)
Definition sample_trend : list (pystr * json) :=
  [(u8 "results",
    JList [JDict [(u8 "data", JList [JInt 3; JInt 5; JInt 7])]])].

Definition sample_metrics : ProjectMetrics :=
  {| dau := 12; wau := 40; mau := 90; pageviews_24h := 300;
     top_pages := []; metric_custom_events := [];
     prev_dau := Some 10; prev_wau := Some 38; prev_mau := Some 85;
     prev_pageviews_24h := Some 280; prev_custom_events := [] |}.

Definition sample_project (id : pystr) : PostHogProject :=
  {| name := JStr id; project_id := id; color := 3447003; custom_events := [] |}.

(** A collector that is rate limited on the project "2" and succeeds on
    every other. *)
Definition sample_fetch (project : PostHogProject) : io ProjectMetrics :=
  fun w =>
    if str_eqb (project_id project) (u8 "2")
    then (Raise (PostHogAPIError (u8 "Rate limited")), w)
    else (Ok sample_metrics, w).

Definition sample_str_of_exn (e : exn) : pystr :=
  match e with
  | PostHogAPIError msg => msg
  | _ => []
  end.

(** A network that answers every request with status 200 and the given
    JSON body. *)
Definition answering_json (body : json) : world :=
  {| network := fun _ => Response 200 (Ok []) (Ok body);
     requests := 0;
     trace := [] |}.

(** A pause that leaves the world as it is. *)
Definition sample_sleep (seconds : spec_float) : io unit := fun w => (Ok tt, w).

Definition sample_config : Config :=
  {| posthog_api_key := u8 "phx_key";
     posthog_region := u8 "eu";
     discord_bot_token := u8 "token";
     discord_user_id := 42;
     projects := [] |}.

(** A project with one configured custom event. *)
Definition sample_project_with_event : PostHogProject :=
  {| name := JStr (u8 "Shop"); project_id := u8 "7"; color := 3447003;
     custom_events := [u8 "signup"] |}.

(** A Discord on which every call returns. *)
Definition discord_up : discord :=
  {| api := fun _ => Ok tt; calls := [] |}.


(** The configuration with one project configured. *)
Definition sample_config_one : Config :=
  {| posthog_api_key := u8 "phx_key";
     posthog_region := u8 "eu";
     discord_bot_token := u8 "token";
     discord_user_id := 42;
     projects := [sample_project (u8 "2")] |}.

(** * Theorems *)

(** ** formatters.py: format_change *)






(** *** Float division and multiplication round to nearest *)













(** *** The percentage, for counts up to ten trillion *)

(** [m / P] is the float quotient of [a] by [b] and [m' / P'] the float
    product of that by 100, both rounded to nearest, with [P = 2 ^ k] and
    [P = P' * J]. *)
Section Percent.

Variables a b m m' k P P' J : Z.
Hypothesis Ha : 0 < a <= 2 * 10 ^ 13.
Hypothesis Hb : 0 < b <= 10 ^ 13.
Hypothesis Hm : 2 ^ 52 <= m < 2 ^ 53.
Hypothesis Hm' : 2 ^ 52 <= m' < 2 ^ 53.
Hypothesis HP : P = 2 ^ k.
Hypothesis Hk : 0 <= k.
Hypothesis HJ : 0 < J.
Hypothesis HP' : 0 < P'.
Hypothesis HPJ : P = P' * J.
Hypothesis Hq : 2 * Z.abs (m * b - a * P) <= b.
Hypothesis Hpct : 2 * Z.abs (m' * J - 100 * m) <= J.






End Percent.








(** ** posthog_client.py: _query *)

Lemma world_eq (w1 w2 : world) :
  network w1 = network w2 -> requests w1 = requests w2 -> trace w1 = trace w2 ->
  w1 = w2.
Proof. destruct w1, w2; cbn; intros; subst; reflexivity. Qed.

(** A call of [_query], attempt by attempt. *)
Lemma query_unfold (self : PostHogClient) (project_id : pystr) (query : json)
    (w : world) :
  session self = true ->
  let post := Post (query_url self project_id) (JDict [(u8 "query", query)]) in
  _query self project_id query w =
    if retryable (attempt w 0) then
      if retryable (attempt w 1) then
        (if retryable (attempt w 2) then exhausted (attempt w 2) else attempt w 2,
         attempted w post [2; 2])
      else (attempt w 1, attempted w post [2])
    else (attempt w 0, attempted w post []).
Proof.
  intros Hs. cbv zeta.
  unfold _query, tenacity.retry, attempt. cbn [Nat.sub tenacity.retry_from].
  unfold query_attempt. rewrite Hs.
  cbn [negb request sleep network requests trace].
  rewrite Nat.add_0_r.
  replace (requests w + 1)%nat with (S (requests w)) by lia.
  replace (requests w + 2)%nat with (S (S (requests w))) by lia.
  destruct (read_response (network w (requests w))) as [a0|e0]; cbn [retryable].
  { f_equal. apply world_eq; cbn; auto; lia. }
  destruct (is_ClientError e0); [|f_equal; apply world_eq; cbn; auto; lia].
  destruct (read_response (network w (S (requests w)))) as [a1|e1]; cbn [retryable].
  { f_equal. apply world_eq; cbn; auto; [lia|now rewrite <- !app_assoc]. }
  destruct (is_ClientError e1);
    [|f_equal; apply world_eq; cbn; auto; [lia|now rewrite <- !app_assoc]].
  destruct (read_response (network w (S (S (requests w))))) as [a2|e2];
    cbn [retryable exhausted].
  { f_equal. apply world_eq; cbn; auto; [lia|now rewrite <- !app_assoc]. }
  destruct (is_ClientError e2);
    f_equal; apply world_eq; cbn; auto; try lia; now rewrite <- !app_assoc.
Qed.

Lemma http_error_raises (status : Z) (text : pyres pystr) (body : pyres json) :
  400 <= status -> status = 429 \/ (exists t, text = Ok t) ->
  exists msg, read_response (Response status text body) = Raise (PostHogAPIError msg).
Proof.
  intros H4 Ht. cbn [read_response].
  destruct (status =? 429) eqn:E; [eauto|].
  assert (G : (status >=? 400) = true) by (apply Z.geb_le; lia).
  rewrite G. destruct Ht as [->|[t ->]]; [discriminate|]. cbn [bind]. eauto.
Qed.

(** What the attempt on a response with status 400 or more raises. *)
Lemma http_error_attempt (status : Z) (text : pyres pystr) (body : pyres json) :
  400 <= status ->
  (status = 429 ->
   read_response (Response status text body)
   = Raise (PostHogAPIError (u8 "Rate limited")))
  /\ (forall t, status <> 429 -> text = Ok t ->
        read_response (Response status text body)
        = Raise (PostHogAPIError
                   (u8 "API error " ++ str_of_int status ++ u8 ": " ++ slice_to 200 t)))
  /\ (forall e, status <> 429 -> text = Raise e ->
        read_response (Response status text body) = Raise e).
Proof.
  intros H4. cbn [read_response].
  assert (G : (status >=? 400) = true) by (apply Z.geb_le; lia).
  split; [|split].
  - intros ->. reflexivity.
  - intros t Hne ->. destruct (status =? 429) eqn:E;
      [apply Z.eqb_eq in E; contradiction|]. rewrite G. reflexivity.
  - intros e Hne ->. destruct (status =? 429) eqn:E;
      [apply Z.eqb_eq in E; contradiction|]. rewrite G. reflexivity.
Qed.

Lemma wait_exponential_bounds (n : nat) :
  2 <= tenacity.wait_exponential 1 2 10 n <= 10.
Proof. unfold tenacity.wait_exponential. lia. Qed.

(** C2 (as amended).  A call of [_query] on an open session makes at most
    three attempts.  It tries again only after an attempt that raised an
    [aiohttp.ClientError], never after an HTTP error status raised as
    [PostHogAPIError].  Each wait between attempts is the exponential
    backoff of the attempt number kept between 2 and 10 seconds.  When all
    three attempts raise a [ClientError], the caller gets a [RetryError]
    that wraps the last of them, not that error itself. *)
Theorem query_retry_policy (self : PostHogClient) (project_id : pystr)
    (query : json) (w : world) :
  session self = true ->
  let post := Post (query_url self project_id) (JDict [(u8 "query", query)]) in
  let call := _query self project_id query w in
  (exists waits,
      snd call = attempted w post waits
      /\ (List.length waits <= 2)%nat
      /\ Forall (fun s => 2 <= s <= 10) waits
      /\ (forall i, (i < List.length waits)%nat ->
            retryable (attempt w i) = true
            /\ nth i waits 0 = tenacity.wait_exponential 1 2 10 (S i))
      /\ (retryable (attempt w (List.length waits)) = false
            /\ fst call = attempt w (List.length waits)
          \/ List.length waits = 2%nat
             /\ exists e, attempt w 2 = Raise e /\ is_ClientError e = true
                          /\ fst call = Raise (RetryError e)))
  /\ (forall status text body,
        400 <= status -> status = 429 \/ (exists t, text = Ok t) ->
        exists msg,
          read_response (Response status text body) = Raise (PostHogAPIError msg)
          /\ retryable (read_response (Response status text body)) = false).
Proof.
  intros Hs post call. split.
  - unfold call. rewrite (query_unfold self project_id query w Hs). fold post.
    destruct (retryable (attempt w 0)) eqn:R0;
      [destruct (retryable (attempt w 1)) eqn:R1;
       [destruct (retryable (attempt w 2)) eqn:R2|]|].
    + exists [2; 2]. cbn [fst snd List.length]. repeat split; auto.
      * repeat constructor; lia.
      * destruct i as [|[|i]]; [exact R0|exact R1|cbn in H; lia].
      * destruct i as [|[|i]]; [reflexivity|reflexivity|cbn in H; lia].
      * right. split; [reflexivity|].
        destruct (attempt w 2) as [a|e]; [discriminate|]. exists e. auto.
    + exists [2; 2]. cbn [fst snd List.length]. repeat split; auto.
      * repeat constructor; lia.
      * destruct i as [|[|i]]; [exact R0|exact R1|cbn in H; lia].
      * destruct i as [|[|i]]; [reflexivity|reflexivity|cbn in H; lia].
    + exists [2]. cbn [fst snd List.length]. repeat split; auto.
      * repeat constructor; lia.
      * destruct i as [|i]; [exact R0|cbn in H; lia].
      * destruct i as [|i]; [reflexivity|cbn in H; lia].
    + exists []. cbn [fst snd List.length]. repeat split; auto.
      * cbn in H; lia.
      * cbn in H; lia.
  - intros status text body H4 Ht.
    destruct (http_error_raises status text body H4 Ht) as [msg E].
    exists msg. rewrite E. auto.
Qed.

(** Three failed connections: three requests, two waits of 2 seconds. *)
Lemma query_retry_policy_witness :
  exists waits,
    snd (_query sample_client (u8 "1") JNull unreachable)
    = attempted unreachable
        (Post (query_url sample_client (u8 "1")) (JDict [(u8 "query", JNull)])) waits
    /\ (List.length waits <= 2)%nat.
Proof.
  destruct (query_retry_policy sample_client (u8 "1") JNull unreachable eq_refl)
    as [[waits [H1 [H2 _]]] _].
  exists waits. split; [exact H1|exact H2].
Defined.

(** C2, as stated, fails at its last clause: after three failed
    connections the caller receives a [RetryError], not the
    [ClientError]. *)
Lemma query_exhaustion_raises_retry_error :
  fst (_query sample_client (u8 "1") JNull unreachable)
  = Raise (RetryError (ClientError (u8 "Cannot connect to host")))
  /\ fst (_query sample_client (u8 "1") JNull unreachable)
     <> Raise (ClientError (u8 "Cannot connect to host")).
Proof. split; [vm_compute; reflexivity|vm_compute; discriminate]. Qed.

(** C8 (as amended).  On an open session, what a response with status 400
    or more comes to.  For status 429 the call ends at once, with no second
    attempt, in [PostHogAPIError] with the fixed message "Rate limited",
    which carries neither status nor body.  For any other such status whose
    body text can be read, it ends at once in [PostHogAPIError] with the
    message "API error <status>: <body>", the body cut to its first 200
    characters.  When reading the body text raises, the attempt raises that
    exception: it ends the call at once unless it is a [ClientError], and
    then the call goes on as after a failed connection, with a second
    request after 2 seconds, a third after 2 more, and a [RetryError] when
    the third fails the same way. *)
Theorem query_http_error (self : PostHogClient) (project_id : pystr)
    (query : json) (w : world) (status : Z) (text : pyres pystr) (body : pyres json) :
  session self = true ->
  network w (requests w) = Response status text body ->
  400 <= status ->
  let post := Post (query_url self project_id) (JDict [(u8 "query", query)]) in
  (status = 429 ->
   _query self project_id query w
   = (Raise (PostHogAPIError (u8 "Rate limited")), attempted w post []))
  /\ (forall t, status <> 429 -> text = Ok t ->
        _query self project_id query w
        = (Raise (PostHogAPIError
                    (u8 "API error " ++ str_of_int status ++ u8 ": " ++ slice_to 200 t)),
           attempted w post [])
        /\ (List.length (slice_to 200 t) <= 200)%nat)
  /\ (forall e, status <> 429 -> text = Raise e ->
        (is_ClientError e = false ->
         _query self project_id query w = (Raise e, attempted w post []))
        /\ (is_ClientError e = true ->
            _query self project_id query w
            = if retryable (attempt w 1) then
                (if retryable (attempt w 2) then exhausted (attempt w 2)
                 else attempt w 2,
                 attempted w post [2; 2])
              else (attempt w 1, attempted w post [2]))).
Proof.
  intros Hs Hn H4 post.
  pose proof (query_unfold self project_id query w Hs) as Q. cbv zeta in Q. fold post in Q.
  assert (A0 : attempt w 0 = read_response (Response status text body))
    by (unfold attempt; now rewrite Nat.add_0_r, Hn).
  rewrite A0 in Q.
  assert (G : (status >=? 400) = true) by (apply Z.geb_le; lia).
  split; [|split].
  - intros ->. exact Q.
  - intros t Hne ->. cbn [read_response] in Q. rewrite G in Q.
    destruct (status =? 429) eqn:E; [apply Z.eqb_eq in E; contradiction|].
    cbn [bind retryable is_ClientError] in Q. split; [exact Q|].
    unfold slice_to. apply firstn_le_length.
  - intros e Hne ->. cbn [read_response] in Q. rewrite G in Q.
    destruct (status =? 429) eqn:E; [apply Z.eqb_eq in E; contradiction|].
    cbn [bind retryable] in Q.
    split; intros C; rewrite C in Q; exact Q.
Qed.

(** A 500 with a short body. *)
Lemma query_http_error_witness :
  fst (_query sample_client (u8 "1") JNull (answering 500 (u8 "boom")))
  = Raise (PostHogAPIError (u8 "API error 500: boom")).
Proof.
  destruct (query_http_error sample_client (u8 "1") JNull (answering 500 (u8 "boom"))
              500 (Ok (u8 "boom")) (Ok JNull) eq_refl eq_refl ltac:(lia)) as [_ [H _]].
  destruct (H (u8 "boom") ltac:(lia) eq_refl) as [E _].
  rewrite E. vm_compute. reflexivity.
Defined.

(** C8, as stated, fails for a status 500 whose body cannot be read: the
    query is posted three times and the caller receives a [RetryError] of
    the [ClientError], with no status code and no body.  It fails at status
    429 too, when that status is counted among those of 400 or more: the
    message is "Rate limited" and holds neither the status code nor the
    body. *)
Lemma query_error_without_status :
  fst (_query sample_client (u8 "1") JNull (answering_unreadable 500))
  = Raise (RetryError (ClientError (u8 "Response payload is not completed")))
  /\ requests (snd (_query sample_client (u8 "1") JNull (answering_unreadable 500)))
     = 3%nat
  /\ fst (_query sample_client (u8 "1") JNull (answering 429 (u8 "slow down")))
     = Raise (PostHogAPIError (u8 "Rate limited"))
  /\ contains (str_of_int 429) (u8 "Rate limited") = false
  /\ contains (u8 "slow down") (u8 "Rate limited") = false.
Proof. repeat split; vm_compute; reflexivity. Qed.

(** ** posthog_client.py: the pageview query *)

Lemma str_eqb_eq (a b : pystr) : str_eqb a b = true <-> a = b.
Proof.
  revert b. induction a as [|x a IH]; intros [|y b]; cbn [str_eqb];
    try (split; [discriminate|discriminate]); [tauto|].
  rewrite andb_true_iff, N.eqb_eq, IH. split; [intros [-> ->]; reflexivity|].
  intros [= -> ->]. auto.
Qed.

Lemma query_posts_first (self : PostHogClient) (project_id : pystr)
    (query : json) (w : world) :
  session self = true ->
  exists rest,
    trace (snd (_query self project_id query w))
    = trace w ++ Post (query_url self project_id) (JDict [(u8 "query", query)]) :: rest.
Proof.
  intros Hs. rewrite (query_unfold self project_id query w Hs).
  destruct (retryable _); [destruct (retryable _)|]; cbn [snd attempted trace]; eauto.
Qed.

(** C9.  For every [date_from] and every [date_to] other than "now", the
    pageview query is the HogQL query whose text filters on the fixed
    window from 8 days to 7 days before now, whatever the two arguments
    are: neither of them occurs in it, it is the query of the call with
    "-8d" and "-7d", and it is what [_fetch_pageviews] posts.  With
    [date_to = "now"] the query is the same text with the filter on the
    trailing day, and that is what is posted. *)
Theorem pageviews_previous_window_fixed (date_from date_to : pystr) :
  date_to <> u8 "now" ->
  let hogql := fun time_filter : pystr =>
    JDict
      [(u8 "kind", JStr (u8 "HogQLQuery"));
       (u8 "query",
        JStr (u8 "
                SELECT
                    properties.$current_url as page,
                    count() as views
                FROM events
                WHERE event = '$pageview'
                  AND " ++ time_filter ++ u8 "
                GROUP BY page
                ORDER BY views DESC
                LIMIT 10
            "))] in
  let previous :=
    hogql (u8 "timestamp >= now() - INTERVAL 8 DAY AND timestamp < now() - INTERVAL 7 DAY") in
  let current := hogql (u8 "timestamp >= now() - INTERVAL 1 DAY") in
  pageviews_query date_from date_to = previous
  /\ pageviews_query date_from (u8 "now") = current
  /\ pageviews_time_filter date_to = previous_window_filter
  /\ pageviews_query date_from date_to = pageviews_query (u8 "-8d") (u8 "-7d")
  /\ pageviews_time_filter (u8 "now") = u8 "timestamp >= now() - INTERVAL 1 DAY"
  /\ (forall int_of_str repr_other self project_id w,
        session self = true ->
        (exists rest,
            trace (snd (_fetch_pageviews int_of_str repr_other self project_id
                          date_from date_to w))
            = trace w
                ++ Post (query_url self project_id) (JDict [(u8 "query", previous)])
                :: rest)
        /\ (exists rest,
              trace (snd (_fetch_pageviews int_of_str repr_other self project_id
                            date_from (u8 "now") w))
              = trace w
                  ++ Post (query_url self project_id) (JDict [(u8 "query", current)])
                  :: rest)).
Proof.
  intros Hne hogql previous current.
  assert (F : pageviews_time_filter date_to = previous_window_filter).
  { unfold pageviews_time_filter.
    case_eq (str_eqb date_to (u8 "now")); intros E.
    - apply str_eqb_eq in E. contradiction.
    - unfold previous_window_filter. exact eq_refl. }
  assert (N : pageviews_time_filter (u8 "now")
              = u8 "timestamp >= now() - INTERVAL 1 DAY")
    by (vm_compute; reflexivity).
  assert (P : pageviews_query date_from date_to = previous).
  { unfold pageviews_query. cbv zeta. rewrite F.
    unfold previous, hogql. vm_compute. reflexivity. }
  assert (C : pageviews_query date_from (u8 "now") = current).
  { unfold current, hogql. vm_compute. reflexivity. }
  assert (Q : pageviews_query date_from date_to = pageviews_query (u8 "-8d") (u8 "-7d")).
  { unfold pageviews_query. cbv zeta. rewrite F. vm_compute. reflexivity. }
  split; [exact P|]. split; [exact C|]. split; [exact F|].
  split; [exact Q|]. split; [exact N|].
  intros ios repr self pid w Hs. unfold _fetch_pageviews, io_bind. split.
  - rewrite P.
    destruct (query_posts_first self pid previous w Hs) as [rest E].
    destruct (_query self pid previous w) as [[r|e] w1]; cbn [snd lift] in *; eauto.
  - rewrite C.
    destruct (query_posts_first self pid current w Hs) as [rest E].
    destruct (_query self pid current w) as [[r|e] w1]; cbn [snd lift] in *; eauto.
Qed.

(** A call with other offsets posts the same query. *)
Lemma pageviews_previous_window_fixed_witness :
  pageviews_query (u8 "-21d") (u8 "-14d") = pageviews_query (u8 "-8d") (u8 "-7d")
  /\ pageviews_time_filter (u8 "-14d") = previous_window_filter.
Proof.
  destruct (pageviews_previous_window_fixed (u8 "-21d") (u8 "-14d")
              ltac:(vm_compute; discriminate)) as [_ [_ [F [Q _]]]].
  split; [exact Q | exact F].
Defined.

(** ** posthog_client.py: reading responses *)

Lemma seq_index_0 {A : Type} (a : A) (l : list A) : seq_index (a :: l) 0 = Ok a.
Proof.
  unfold seq_index. cbn [Z.ltb Z.compare].
  replace (Z.of_nat (List.length (a :: l)) <=? 0) with false; [reflexivity|].
  symmetry. apply Z.leb_gt. cbn [List.length]. lia.
Qed.

Lemma seq_index_1 {A : Type} (a b : A) (l : list A) : seq_index (a :: b :: l) 1 = Ok b.
Proof.
  unfold seq_index. cbn [Z.ltb Z.compare].
  replace (Z.of_nat (List.length (a :: b :: l)) <=? 1) with false; [reflexivity|].
  symmetry. apply Z.leb_gt. cbn [List.length]. lia.
Qed.

Lemma seq_index_last {A : Type} (l : list A) (a : A) : seq_index (l ++ [a]) (-1) = Ok a.
Proof.
  unfold seq_index. cbn [Z.ltb Z.compare]. rewrite length_app. cbn [List.length].
  replace (-1 + Z.of_nat (List.length l + 1)) with (Z.of_nat (List.length l)) by lia.
  replace (Z.of_nat (List.length l) <? 0) with false by (symmetry; apply Z.ltb_ge; lia).
  replace (Z.of_nat (List.length l + 1) <=? Z.of_nat (List.length l)) with false
    by (symmetry; apply Z.leb_gt; lia).
  cbn [orb]. rewrite Nat2Z.id, nth_error_app2, Nat.sub_diag by lia. reflexivity.
Qed.

Lemma Forall2_firstn {A B : Type} (R : A -> B -> Prop) (n : nat) :
  forall l l', Forall2 R l l' -> Forall2 R (firstn n l) (firstn n l').
Proof.
  induction n as [|n IH]; intros l l' H; [constructor|].
  destruct H; cbn [firstn]; constructor; auto.
Qed.

Lemma firstn_In {A : Type} (n : nat) :
  forall (l : list A) (x : A), In x (firstn n l) -> In x l.
Proof.
  induction n as [|n IH]; intros [|a l] x; cbn [firstn In]; auto; try tauto.
  intros [H|H]; auto.
Qed.

Lemma StronglySorted_filter {A : Type} (R : A -> A -> Prop) (f : A -> bool) (l : list A) :
  StronglySorted R l -> StronglySorted R (filter f l).
Proof.
  induction 1 as [|a l Hs IH Ha]; cbn [filter]; [constructor|].
  destruct (f a); [|exact IH].
  constructor; [exact IH|].
  apply Forall_forall. intros x Hx. apply filter_In in Hx.
  rewrite Forall_forall in Ha. now apply Ha.
Qed.

Lemma StronglySorted_firstn {A : Type} (R : A -> A -> Prop) (n : nat) :
  forall l : list A, StronglySorted R l -> StronglySorted R (firstn n l).
Proof.
  induction n as [|n IH]; intros l H; [constructor|].
  destruct H as [|a l Hs Ha]; cbn [firstn]; constructor; auto.
  apply Forall_forall. intros x Hx. rewrite Forall_forall in Ha.
  apply Ha. eapply firstn_In. exact Hx.
Qed.

Section Readings.

Variable int_of_str : pystr -> option Z.
Variable repr_other : json -> pystr.

(** C4.  The claim holds of the shapes the handler covers and fails where
    the value met is not a [dict]: [.get] raises [AttributeError], which
    the handler [except (KeyError, IndexError, TypeError)] does not catch.
    Here the response is [{"results": [null]}], and the one whose results
    are missing or empty still reads as 0. *)
Theorem extract_trend_value_attribute_error :
  _extract_trend_value int_of_str (JDict [(u8 "results", JList [JNull])])
  = Raise AttributeError
  /\ _extract_trend_value int_of_str (JList []) = Raise AttributeError
  /\ _extract_trend_value int_of_str (JDict []) = Ok 0
  /\ _extract_trend_value int_of_str (JDict [(u8 "results", JList [])]) = Ok 0.
Proof. repeat split. Qed.

(** A trend response of the documented shape reads as the last data point
    of its first series. *)
Lemma extract_trend_value_last (d first : list (pystr * json))
    (rest points : list json) (n : Z) :
  dict_get d (u8 "results") = Some (JList (JDict first :: rest)) ->
  dict_get first (u8 "data") = Some (JList (points ++ [JInt n])) ->
  _extract_trend_value int_of_str (JDict d) = Ok n.
Proof.
  intros Hr Hd. unfold _extract_trend_value, extract_trend_value_try.
  cbn [py_get bind]. rewrite Hr. cbn [py_getitem]. rewrite seq_index_0.
  cbn [bind py_get]. rewrite Hd.
  assert (T : py_truthy (JList (points ++ [JInt n])) = true).
  { cbn [py_truthy]. rewrite length_app. cbn [List.length].
    destruct (List.length points + 1)%nat eqn:L; [lia|reflexivity]. }
  rewrite T. cbn [py_getitem]. rewrite seq_index_last. reflexivity.
Qed.

Lemma top_pages_of_table (rows : list json) (table : list (json * Z)) :
  Forall2 (row_reads int_of_str) rows table ->
  top_pages_of int_of_str repr_other rows
  = Ok (map (page_of repr_other) (filter has_url table)).
Proof.
  induction 1 as [|r uv rows table [cell [extra [-> Hv]]] _ IH]; [reflexivity|].
  cbn [top_pages_of py_getitem filter].
  rewrite seq_index_0, seq_index_1. cbn [bind].
  unfold has_url at 1. destruct (py_truthy (fst uv)).
  - rewrite Hv. cbn [bind]. rewrite IH. reflexivity.
  - exact IH.
Qed.

Lemma sum_views_table (rows : list json) (table : list (json * Z)) :
  Forall2 (row_reads int_of_str) rows table ->
  forall acc, sum_views int_of_str rows acc = Ok (acc + sum_Z (map snd table)).
Proof.
  induction 1 as [|r uv rows table [cell [extra [-> Hv]]] _ IH]; intros acc.
  - cbn. f_equal. lia.
  - cbn [sum_views py_len bind].
    assert (G : (Z.of_nat (List.length (fst uv :: cell :: extra)) >? 1) = true)
      by (apply Z.gtb_gt; cbn [List.length]; lia).
    rewrite G. cbn [py_getitem]. rewrite seq_index_1. cbn [bind].
    rewrite Hv. cbn [bind]. rewrite IH. unfold sum_Z. cbn [map fold_right].
    f_equal. lia.
Qed.

(** What [_fetch_pageviews] returns for a response that holds a table. *)
Lemma pageviews_of_table (d : list (pystr * json)) (rows : list json)
    (table : list (json * Z)) :
  dict_get d (u8 "results") = Some (JList rows) ->
  Forall2 (row_reads int_of_str) rows table ->
  pageviews_of_result int_of_str repr_other (JDict d)
  = Ok (sum_Z (map snd table),
        map (page_of repr_other) (filter has_url (firstn 5 table))).
Proof.
  intros Hd Ht. unfold pageviews_of_result. cbn [py_get bind]. rewrite Hd.
  cbn [py_slice_to py_iter bind].
  rewrite (top_pages_of_table (firstn 5 rows) (firstn 5 table))
    by (now apply Forall2_firstn).
  cbn [bind]. rewrite (sum_views_table rows table Ht). reflexivity.
Qed.

Lemma top_pages_length (rows : list json) (top : list (pystr * Z)) :
  top_pages_of int_of_str repr_other rows = Ok top ->
  (List.length top <= List.length rows)%nat.
Proof.
  revert top. induction rows as [|r rows IH]; intros top.
  - intros [= <-]. cbn. lia.
  - cbn [top_pages_of].
    destruct (py_getitem r 0) as [url|]; cbn [bind]; [|discriminate].
    destruct (py_truthy url).
    + destruct (py_getitem r 1) as [views|]; cbn [bind]; [|discriminate].
      destruct (py_int int_of_str views) as [n|]; cbn [bind]; [|discriminate].
      destruct (top_pages_of int_of_str repr_other rows) as [tl|]; cbn [bind];
        [|discriminate].
      intros [= <-]. specialize (IH tl eq_refl). cbn [List.length]. lia.
    + intros H. specialize (IH top H). cbn [List.length]. lia.
Qed.

Lemma py_iter_slice_length (v first5 : json) (rows5 : list json) :
  py_slice_to 5 v = Ok first5 -> py_iter first5 = Ok rows5 ->
  (List.length rows5 <= 5)%nat.
Proof.
  destruct v as [| | | | s | l | d]; try discriminate; intros H1 H2.
  - assert (E1 : first5 = JStr (firstn 5 s))
      by (cbv [py_slice_to slice_to] in H1; congruence).
    subst first5.
    assert (E2 : rows5 = map (fun c => JStr [c]) (firstn 5 s))
      by (cbv [py_iter] in H2; congruence).
    subst rows5. rewrite length_map. apply firstn_le_length.
  - assert (E1 : first5 = JList (firstn 5 l)) by (cbv [py_slice_to] in H1; congruence).
    subst first5.
    assert (E2 : rows5 = firstn 5 l) by (cbv [py_iter] in H2; congruence).
    subst rows5. apply firstn_le_length.
Qed.

(** Whatever the response, the top pages returned are at most five. *)
Lemma pageviews_at_most_five (result : json) (total : Z) (top : list (pystr * Z)) :
  pageviews_of_result int_of_str repr_other result = Ok (total, top) ->
  (List.length top <= 5)%nat.
Proof.
  unfold pageviews_of_result.
  destruct (py_get result _ _) as [results|]; cbn [bind]; [|discriminate].
  destruct (py_slice_to 5 results) as [first5|] eqn:S; cbn [bind]; [|discriminate].
  destruct (py_iter first5) as [rows5|] eqn:I; cbn [bind]; [|discriminate].
  destruct (top_pages_of int_of_str repr_other rows5) as [tp|] eqn:T; cbn [bind];
    [|discriminate].
  destruct (py_iter results) as [rows|]; cbn [bind]; [|discriminate].
  destruct (sum_views int_of_str rows 0) as [t|]; cbn [bind]; [|discriminate].
  intros [= _ <-].
  pose proof (top_pages_length _ _ T). pose proof (py_iter_slice_length _ _ _ S I). lia.
Qed.

Lemma views_order_kept (table : list (json * Z)) :
  Sorted Z.ge (map snd table) ->
  Sorted Z.ge (map snd (map (page_of repr_other) (filter has_url (firstn 5 table)))).
Proof.
  intros H. rewrite map_map. cbn [page_of snd].
  apply Sorted_StronglySorted in H; [|intros x y z Hxy Hyz; lia].
  apply StronglySorted_Sorted.
  assert (K : forall l : list (json * Z),
             StronglySorted Z.ge (map snd l) -> StronglySorted by_views_desc l).
  { induction l as [|a l IHl]; cbn [map]; intros S; [constructor|].
    inversion S as [|? ? S' F]; subst. constructor; auto.
    rewrite Forall_map in F. exact F. }
  assert (K' : forall l : list (json * Z),
             StronglySorted by_views_desc l -> StronglySorted Z.ge (map snd l)).
  { induction l as [|a l IHl]; cbn [map]; intros S; [constructor|].
    inversion S as [|? ? S' F]; subst. constructor; auto.
    rewrite Forall_map. exact F. }
  apply K'. apply StronglySorted_filter, StronglySorted_firstn, K, H.
Qed.

(** C6 (as amended).  For a response whose results are a table of rows
    [[url, views, ...]], [_fetch_pageviews] returns at most five top pages,
    in the order of the rows they come from; it does not sort, so the
    views are non-increasing when the rows arrive non-increasing in views,
    as the query's ORDER BY asks. *)
Theorem top_pages_bounded_in_api_order (d : list (pystr * json))
    (rows : list json) (table : list (json * Z)) :
  dict_get d (u8 "results") = Some (JList rows) ->
  Forall2 (row_reads int_of_str) rows table ->
  exists total top,
    pageviews_of_result int_of_str repr_other (JDict d) = Ok (total, top)
    /\ (List.length top <= 5)%nat
    /\ top = map (page_of repr_other) (filter has_url (firstn 5 table))
    /\ (Sorted Z.ge (map snd table) -> Sorted Z.ge (map snd top)).
Proof.
  intros Hd Ht. eexists _, _. split; [apply (pageviews_of_table d rows table Hd Ht)|].
  split; [|split; [reflexivity|apply views_order_kept]].
  rewrite length_map.
  etransitivity; [apply filter_length_le | apply firstn_le_length].
Qed.

(** C7 (as amended).  For a response whose results are a table of rows
    [[url, views, ...]], the top pages are the rows with a non-empty URL
    among the first five rows, each URL cut to 50 characters, and the total
    is the sum of the views of all rows, not only of those five. *)
Theorem pageviews_top_and_total (d : list (pystr * json))
    (rows : list json) (table : list (json * Z)) :
  dict_get d (u8 "results") = Some (JList rows) ->
  Forall2 (row_reads int_of_str) rows table ->
  pageviews_of_result int_of_str repr_other (JDict d)
  = Ok (sum_Z (map snd table),
        map (page_of repr_other) (filter has_url (firstn 5 table)))
  /\ Forall (fun page => (List.length (fst page) <= 50)%nat)
       (map (page_of repr_other) (filter has_url (firstn 5 table))).
Proof.
  intros Hd Ht. split; [apply (pageviews_of_table d rows table Hd Ht)|].
  apply Forall_forall. intros page Hin. apply in_map_iff in Hin.
  destruct Hin as [uv [<- _]]. cbn [page_of fst]. unfold slice_to.
  apply firstn_le_length.
Qed.

End Readings.

(** ** posthog_client.py: discover_projects *)

Section Discovery.

Variable repr_other : json -> pystr.

Lemma discover_loop_entries (entries : list (list (pystr * json))) :
  forall i projects,
    discover_loop repr_other i (map JDict entries) projects
    = Ok (projects
            ++ map (project_at repr_other)
                 (filter (fun ie => has_id repr_other (snd ie))
                    (enumerate_from i entries))).
Proof.
  induction entries as [|entry rest IH]; intros i projects.
  - cbn. now rewrite app_nil_r.
  - cbn [map discover_loop py_get bind].
    change (py_str repr_other
              match dict_get entry (u8 "id") with Some x => x | None => JStr [] end)
      with (entry_id repr_other entry).
    change (match dict_get entry (u8 "name") with
            | Some x => x
            | None => JStr (u8 "Project " ++ entry_id repr_other entry)
            end) with (entry_name repr_other entry).
    change (py_truthy (JStr (entry_id repr_other entry)))
      with (has_id repr_other entry).
    unfold enumerate_from. cbn [List.length seq combine filter snd].
    fold (enumerate_from (S i) rest).
    destruct (has_id repr_other entry).
    + rewrite IH. cbn [map]. rewrite <- app_assoc. reflexivity.
    + apply IH.
Qed.

(** The [k]-th kept entry stands at position [k] plus the number of
    entries skipped before it. *)
Lemma kept_positions (entries : list (list (pystr * json))) :
  forall start k i entry,
    nth_error (filter (fun ie => has_id repr_other (snd ie))
                 (enumerate_from start entries)) k
    = Some (i, entry) ->
    (start <= i)%nat
    /\ nth_error entries (i - start) = Some entry
    /\ (i - start
        = k + List.length (filter (fun e => negb (has_id repr_other e))
                             (firstn (i - start) entries)))%nat.
Proof.
  induction entries as [|e rest IH]; intros start k i entry.
  - cbn. destruct k; discriminate.
  - unfold enumerate_from. cbn [List.length seq combine filter snd].
    fold (enumerate_from (S start) rest).
    destruct (has_id repr_other e) eqn:He.
    + destruct k as [|k]; cbn [nth_error].
      * intros [= <- <-]. rewrite Nat.sub_diag. cbn. auto.
      * intros H. destruct (IH _ _ _ _ H) as [L [N C]].
        replace (i - start)%nat with (S (i - S start)) by lia.
        cbn [nth_error firstn filter]. rewrite He. cbn [negb].
        repeat split; [lia|exact N|lia].
    + intros H. destruct (IH _ _ _ _ H) as [L [N C]].
      replace (i - start)%nat with (S (i - S start)) by lia.
      cbn [nth_error firstn filter]. rewrite He. cbn [negb List.length].
      repeat split; [lia|exact N|lia].
Qed.

(** C10.  For a listing whose entries are objects, discovery returns one
    project per entry whose id reads as a non-empty string and omits the
    others without an error, an entry with no id or an empty id among
    them.  The colour of a kept project is the palette entry at the
    position of its entry in the whole listing modulo 8: the [k]-th kept
    project has the colour at [k] plus the number of entries skipped before
    it, so skipped entries use up palette positions (the listing
    [sample_listing], with its second entry skipped, gets palette entries
    0 and 2). *)
Theorem discovery_skips_but_counts_positions (data : json)
    (entries : list (list (pystr * json))) :
  discovery_results data = JList (map JDict entries) ->
  projects_of_data repr_other data
  = Ok (map (project_at repr_other) (kept_entries repr_other entries))
  /\ (forall entry,
        dict_get entry (u8 "id") = None \/ dict_get entry (u8 "id") = Some (JStr []) ->
        has_id repr_other entry = false)
  /\ (forall k i entry,
        nth_error (kept_entries repr_other entries) k = Some (i, entry) ->
        nth_error entries i = Some entry
        /\ color (project_at repr_other (i, entry)) = nth (i mod 8) PROJECT_COLORS 0
        /\ (i = k + List.length (filter (fun e => negb (has_id repr_other e))
                                   (firstn i entries)))%nat)
  /\ (exists projects,
         projects_of_data repr_other (JList (map JDict sample_listing)) = Ok projects
         /\ map color projects = [nth 0 PROJECT_COLORS 0; nth 2 PROJECT_COLORS 0]).
Proof.
  intros Hd. split; [|split; [|split]].
  - unfold projects_of_data. rewrite Hd. cbn [py_iter bind].
    rewrite discover_loop_entries. reflexivity.
  - intros entry [H|H]; unfold has_id, entry_id; rewrite H; reflexivity.
  - intros k i entry H. destruct (kept_positions entries 0 k i entry H) as [_ [N C]].
    rewrite Nat.sub_0_r in *. auto.
  - eexists. split; vm_compute; reflexivity.
Qed.

End Discovery.

(** The sample listing: its first and third entries are kept. *)
Lemma discovery_skips_but_counts_positions_witness :
  projects_of_data (fun _ => []) (JList (map JDict sample_listing))
  = Ok (map (project_at (fun _ => []))
          (kept_entries (fun _ => []) sample_listing)).
Proof.
  apply (proj1 (discovery_skips_but_counts_positions (fun _ => [])
                  (JList (map JDict sample_listing)) sample_listing eq_refl)).
Defined.

(** The last point of the sample series. *)
Lemma extract_trend_value_last_witness :
  _extract_trend_value (fun _ => None) (JDict sample_trend) = Ok 7.
Proof.
  apply (extract_trend_value_last (fun _ => None) sample_trend
           [(u8 "data", JList [JInt 3; JInt 5; JInt 7])] [] [JInt 3; JInt 5] 7);
    vm_compute; reflexivity.
Defined.

(** The unsorted sample response has two top pages. *)
Lemma pageviews_at_most_five_witness :
  (List.length [(u8 "/a", 1); (u8 "/b", 2)] <= 5)%nat.
Proof.
  apply (pageviews_at_most_five (fun _ => None) (fun _ => [])
           (response_of sample_rows_unsorted) 3 [(u8 "/a", 1); (u8 "/b", 2)]).
  vm_compute. reflexivity.
Defined.

(** C6, as stated, fails for a response whose rows are not in descending
    order: the top pages come back in the order received. *)
Lemma top_pages_follow_api_order :
  (forall int_of_str repr_other,
      pageviews_of_result int_of_str repr_other (response_of sample_rows_unsorted)
      = Ok (3, [(u8 "/a", 1); (u8 "/b", 2)]))
  /\ ~ Sorted Z.ge (map snd [(u8 "/a", 1); (u8 "/b", 2)]).
Proof.
  split; [intros; vm_compute; reflexivity|].
  intros H. cbn [map snd] in H. inversion H as [|? ? _ Hd]; subst.
  inversion Hd as [|? ? Hge]; subst. lia.
Qed.

(** Two rows in descending order. *)
Lemma top_pages_bounded_in_api_order_witness :
  exists total top,
    pageviews_of_result (fun _ => None) (fun _ => [])
      (response_of [(JStr (u8 "/b"), 2); (JStr (u8 "/a"), 1)]) = Ok (total, top)
    /\ (List.length top <= 5)%nat.
Proof.
  destruct (top_pages_bounded_in_api_order (fun _ => None) (fun _ => [])
              [(u8 "results",
                JList (map (fun uv => JList [fst uv; JInt (snd uv)])
                         [(JStr (u8 "/b"), 2); (JStr (u8 "/a"), 1)]))]
              (map (fun uv => JList [fst uv; JInt (snd uv)])
                 [(JStr (u8 "/b"), 2); (JStr (u8 "/a"), 1)])
              [(JStr (u8 "/b"), 2); (JStr (u8 "/a"), 1)])
    as [total [top [H1 [H2 _]]]].
  - vm_compute. reflexivity.
  - repeat constructor; eexists _, _; split; reflexivity.
  - exists total, top. split; [exact H1|exact H2].
Defined.

(** C7, as stated, fails when one of the first five rows has an empty URL:
    the code returns the four other rows of those five, while the first
    five rows with a URL are five. *)
Lemma top_pages_taken_before_filtering :
  (forall int_of_str repr_other,
      pageviews_of_result int_of_str repr_other (response_of sample_rows_null_first)
      = Ok (45, [(u8 "/a", 9); (u8 "/b", 8); (u8 "/c", 7); (u8 "/d", 6)])
      /\ first_five_with_url repr_other sample_rows_null_first
         = [(u8 "/a", 9); (u8 "/b", 8); (u8 "/c", 7); (u8 "/d", 6); (u8 "/e", 5)])
  /\ [(u8 "/a", 9); (u8 "/b", 8); (u8 "/c", 7); (u8 "/d", 6)]
     <> [(u8 "/a", 9); (u8 "/b", 8); (u8 "/c", 7); (u8 "/d", 6); (u8 "/e", 5)].
Proof.
  split; [intros; split; vm_compute; reflexivity|discriminate].
Qed.

(** The response with an empty URL in its first row: four top pages, and
    all six rows in the total. *)
Lemma pageviews_top_and_total_witness :
  pageviews_of_result (fun _ => None) (fun _ => []) (response_of sample_rows_null_first)
  = Ok (sum_Z (map snd sample_rows_null_first),
        map (page_of (fun _ => [])) (filter has_url (firstn 5 sample_rows_null_first))).
Proof.
  apply (proj1 (pageviews_top_and_total (fun _ => None) (fun _ => [])
                  [(u8 "results",
                    JList (map (fun uv => JList [fst uv; JInt (snd uv)])
                             sample_rows_null_first))]
                  (map (fun uv => JList [fst uv; JInt (snd uv)]) sample_rows_null_first)
                  sample_rows_null_first
                  ltac:(vm_compute; reflexivity)
                  ltac:(repeat constructor; eexists _, _; split; reflexivity))).
Defined.

(** ** discord_client.py: _split_message *)

Lemma split_join (s : pystr) :
  List.concat (map (fun l => l ++ [newline]) (split newline s)) = s ++ [newline].
Proof.
  induction s as [|c s IH]; [reflexivity|].
  cbn [split]. destruct (c =? newline)%N eqn:E.
  - apply N.eqb_eq in E. subst c. cbn. now rewrite IH.
  - destruct (split newline s) as [|l ls] eqn:S.
    + cbn in IH. destruct s; discriminate.
    + cbn in *. now rewrite IH.
Qed.

Lemma lstrip_spec (s : pystr) :
  exists t, s = t ++ lstrip s /\ all_space t
            /\ (forall c r, lstrip s = c :: r -> isspace c = false).
Proof.
  induction s as [|c s [t [E [A N]]]].
  - exists []. repeat split; [constructor | discriminate].
  - cbn [lstrip]. destruct (isspace c) eqn:C.
    + exists (c :: t). repeat split.
      * cbn. now rewrite <- E.
      * constructor; assumption.
      * exact N.
    + exists []. repeat split; [constructor|].
      intros c' r [= <- <-]. exact C.
Qed.

Lemma rstrip_spec (s : pystr) :
  exists t, s = rstrip s ++ t /\ all_space t
            /\ (forall r c, rstrip s = r ++ [c] -> isspace c = false).
Proof.
  unfold rstrip. destruct (lstrip_spec (rev s)) as [t [E [A N]]].
  exists (rev t). repeat split.
  - rewrite <- rev_app_distr, <- E. now rewrite rev_involutive.
  - apply Forall_rev. exact A.
  - intros r c H. apply (f_equal (@rev _)) in H.
    rewrite rev_involutive, rev_app_distr in H. cbn in H. eauto.
Qed.




Lemma split_loop_raw (max_length : Z) (lines : list pystr) :
  forall chunks current raws,
    chunks = map rstrip raws ->
    Forall ends_with_newline raws ->
    current = [] \/ ends_with_newline current ->
    exists raws',
      fst (split_loop max_length lines chunks current) = map rstrip raws'
      /\ Forall ends_with_newline raws'
      /\ (snd (split_loop max_length lines chunks current) = []
          \/ ends_with_newline (snd (split_loop max_length lines chunks current)))
      /\ List.concat raws' ++ snd (split_loop max_length lines chunks current)
         = List.concat raws ++ current
             ++ List.concat (map (fun l => l ++ [newline]) lines).
Proof.
  induction lines as [|line rest IH]; intros chunks current raws Hc Hr Hcur.
  - exists raws. cbn. rewrite app_nil_r. auto.
  - cbn [split_loop].
    destruct (len current + len line + 1 >? max_length).
    + destruct current as [|c0 cs] eqn:Ecur.
      * destruct (IH chunks (line ++ [newline]) raws Hc Hr) as [raws' H].
        { right. now exists line. }
        exists raws'. cbn [List.length Nat.eqb negb map List.concat app] in *.
        exact H.
      * assert (Hnl : ends_with_newline (c0 :: cs)) by (destruct Hcur; [discriminate|auto]).
        destruct (IH (chunks ++ [rstrip (c0 :: cs)]) (line ++ [newline])
                    (raws ++ [c0 :: cs])) as [raws' [H1 [H2 [H3 H4]]]].
        { rewrite map_app, Hc. reflexivity. }
        { apply Forall_app. split; [exact Hr|]. constructor; [exact Hnl|constructor]. }
        { right. now exists line. }
        exists raws'. cbn [List.length Nat.eqb negb].
        repeat split; auto.
        rewrite H4, concat_app. cbn [map List.concat].
        rewrite app_nil_r, <- !app_assoc. reflexivity.
    + destruct (IH chunks (current ++ line ++ [newline]) raws Hc Hr)
        as [raws' [H1 [H2 [H3 H4]]]].
      { right. exists (current ++ line). now rewrite <- app_assoc. }
      exists raws'. repeat split; auto.
      rewrite H4. cbn [map List.concat]. rewrite <- !app_assoc. reflexivity.
Qed.






(** ** main.py: the collection loop *)

Section Collection.

Variable fetch_project_metrics : PostHogProject -> io ProjectMetrics.
Variable str_of_exn : exn -> pystr.

Lemma outcomes_projects projects w :
  map fst (outcomes fetch_project_metrics projects w) = projects.
Proof.
  revert w. induction projects as [|p rest IH]; intros w; [reflexivity|].
  cbn [outcomes]. destruct (fetch_project_metrics p w) as [r w1].
  cbn. now rewrite IH.
Qed.

Lemma collect_outcomes projects :
  forall results errors w,
    Forall (fun o => is_error (snd o)) (outcomes fetch_project_metrics projects w) ->
    fst (collect fetch_project_metrics str_of_exn projects results errors w)
    = Ok (results ++ successes (outcomes fetch_project_metrics projects w),
          errors ++ failures str_of_exn (outcomes fetch_project_metrics projects w)).
Proof.
  induction projects as [|p rest IH]; intros results errors w H.
  - cbn. now rewrite !app_nil_r.
  - cbn [collect outcomes] in *.
    destruct (fetch_project_metrics p w) as [[m|e] w1].
    + inversion H; subst. rewrite IH by assumption.
      cbn. now rewrite <- !app_assoc.
    + inversion H as [|? ? He Hrest]; subst. cbn [snd is_error] in He.
      assert (E : fst (collect fetch_project_metrics str_of_exn rest results
                         (errors ++ [(p, str_of_exn e)]) w1)
                  = Ok (results ++ successes (outcomes fetch_project_metrics rest w1),
                        (errors ++ [(p, str_of_exn e)])
                          ++ failures str_of_exn (outcomes fetch_project_metrics rest w1)))
        by (apply IH; assumption).
      rewrite <- app_assoc in E. cbn [app] in E.
      destruct e; cbn [is_Exception] in *; try exact E. discriminate.
Qed.

Lemma failures_fst outs p :
  In p (map fst (failures str_of_exn outs)) -> In p (map fst outs).
Proof.
  induction outs as [|[q [m|e]] outs IH]; cbn; auto.
  intros [H|H]; auto.
Qed.

Lemma successes_fst outs p : In p (map fst (successes outs)) -> In p (map fst outs).
Proof.
  induction outs as [|[q [m|e]] outs IH]; cbn; auto.
  intros [H|H]; auto.
Qed.

Lemma failures_app a b :
  failures str_of_exn (a ++ b) = failures str_of_exn a ++ failures str_of_exn b.
Proof. unfold failures. now rewrite flat_map_app. Qed.

Lemma successes_app a b : successes (a ++ b) = successes a ++ successes b.
Proof. unfold successes. now rewrite flat_map_app. Qed.

Lemma split_lengths outs :
  (List.length (successes outs) + List.length (failures str_of_exn outs))%nat
  = List.length outs.
Proof.
  unfold successes, failures.
  induction outs as [|[q [m|e]] outs IH]; cbn in *; lia.
Qed.

(** C3.  In a run where every fetch returns or raises an error, the loop
    of [main] ends with the successes and the failures of all projects, in
    order: a project whose fetch raised stands in the failure list with the
    message of its error (exactly once when the projects are distinct, and
    then not in the success list), and every project whose fetch returned,
    before or after a failure, stands in the success list with its
    metrics. *)
Theorem main_isolates_failures (projects : list PostHogProject) (w : world) :
  let outs := outcomes fetch_project_metrics projects w in
  Forall (fun o => is_error (snd o)) outs ->
  fst (collect fetch_project_metrics str_of_exn projects [] [] w)
  = Ok (successes outs, failures str_of_exn outs)
  /\ (forall p e, In (p, Raise e) outs ->
        In (p, str_of_exn e) (failures str_of_exn outs)
        /\ (NoDup projects ->
            once p (str_of_exn e) (failures str_of_exn outs)
            /\ ~ In p (map fst (successes outs))))
  /\ (forall p m, In (p, Ok m) outs -> In (p, m) (successes outs))
  /\ (List.length (successes outs) + List.length (failures str_of_exn outs))%nat
     = List.length projects.
Proof.
  intros outs H. split; [|split; [|split]].
  - now rewrite collect_outcomes.
  - intros p e Hin. split.
    + unfold failures. apply in_flat_map. exists (p, Raise e). cbn. auto.
    + intros Hnd. rewrite <- (outcomes_projects projects w) in Hnd. fold outs in Hnd.
      destruct (in_split _ _ Hin) as [o1 [o2 E]]. rewrite E in *.
      rewrite map_app in Hnd. cbn [map fst] in Hnd.
      apply NoDup_remove_2 in Hnd.
      assert (N1 : ~ In p (map fst o1)) by (intros X; apply Hnd, in_or_app; auto).
      assert (N2 : ~ In p (map fst o2)) by (intros X; apply Hnd, in_or_app; auto).
      split.
      * exists (failures str_of_exn o1), (failures str_of_exn o2).
        rewrite failures_app. cbn.
        repeat split; auto using failures_fst.
      * rewrite successes_app, map_app. cbn. intros X.
        apply in_app_or in X. destruct X as [X|X]; apply successes_fst in X; auto.
  - intros p m Hin. unfold successes. apply in_flat_map. exists (p, Ok m). cbn. auto.
  - rewrite split_lengths. unfold outs.
    rewrite <- (outcomes_projects projects w) at 2. now rewrite length_map.
Qed.

End Collection.

(** Three projects, the second rate limited: it alone is in the failure
    list, and the third is still collected. *)
Lemma main_isolates_failures_witness :
  fst (collect sample_fetch sample_str_of_exn
         [sample_project (u8 "1"); sample_project (u8 "2"); sample_project (u8 "3")]
         [] [] unreachable)
  = Ok ([(sample_project (u8 "1"), sample_metrics);
         (sample_project (u8 "3"), sample_metrics)],
        [(sample_project (u8 "2"), u8 "Rate limited")]).
Proof.
  apply (proj1 (main_isolates_failures sample_fetch sample_str_of_exn
                  [sample_project (u8 "1"); sample_project (u8 "2");
                   sample_project (u8 "3")]
                  unreachable
                  ltac:(repeat constructor))).
Defined.

(** * More of the code *)

(** ** posthog_client.py: degenerate trend responses *)

Section TrendEdges.

Variable int_of_str : pystr -> option Z.

(** A trend response with nothing to read resolves to 0: no "results"
    key, an empty result list, results that are an object, a first series
    with no "data" key or with empty data, or a last data point that is
    null. *)
Theorem extract_trend_value_no_data (d : list (pystr * json)) :
  dict_get d (u8 "results") = None
  \/ dict_get d (u8 "results") = Some (JList [])
  \/ (exists r, dict_get d (u8 "results") = Some (JDict r))
  \/ (exists first rest,
        dict_get d (u8 "results") = Some (JList (JDict first :: rest))
        /\ (dict_get first (u8 "data") = None
            \/ dict_get first (u8 "data") = Some (JList [])
            \/ exists points,
                 dict_get first (u8 "data") = Some (JList (points ++ [JNull])))) ->
  _extract_trend_value int_of_str (JDict d) = Ok 0.
Proof.
  unfold _extract_trend_value, extract_trend_value_try. cbn [py_get bind].
  intros [H | [H | [[r H] | [first [rest [H Hd]]]]]]; rewrite H.
  - cbn [py_getitem]. rewrite seq_index_0. reflexivity.
  - reflexivity.
  - reflexivity.
  - cbn [py_getitem]. rewrite seq_index_0. cbn [bind py_get].
    destruct Hd as [Hd | [Hd | [points Hd]]]; rewrite Hd; try reflexivity.
    assert (T : py_truthy (JList (points ++ [JNull])) = true).
    { cbn [py_truthy]. rewrite length_app. cbn [List.length].
      destruct (List.length points + 1)%nat eqn:L; [lia|reflexivity]. }
    rewrite T. cbn [py_getitem]. rewrite seq_index_last. reflexivity.
Qed.

(** A last data point that is text goes through [int()]: its value when
    the text is an integer literal, and otherwise a [ValueError], which the
    handler does not catch. *)
Theorem extract_trend_value_text_point (d first : list (pystr * json))
    (rest points : list json) (s : pystr) :
  dict_get d (u8 "results") = Some (JList (JDict first :: rest)) ->
  dict_get first (u8 "data") = Some (JList (points ++ [JStr s])) ->
  _extract_trend_value int_of_str (JDict d)
  = match int_of_str s with
    | Some n => Ok n
    | None => Raise ValueError
    end.
Proof.
  intros Hr Hd. unfold _extract_trend_value, extract_trend_value_try.
  cbn [py_get bind]. rewrite Hr. cbn [py_getitem]. rewrite seq_index_0.
  cbn [bind py_get]. rewrite Hd.
  assert (T : py_truthy (JList (points ++ [JStr s])) = true).
  { cbn [py_truthy]. rewrite length_app. cbn [List.length].
    destruct (List.length points + 1)%nat eqn:L; [lia|reflexivity]. }
  rewrite T. cbn [py_getitem]. rewrite seq_index_last. cbn [bind py_int].
  destruct (int_of_str s); reflexivity.
Qed.

End TrendEdges.

(** A response that is an empty object. *)
Lemma extract_trend_value_no_data_witness :
  _extract_trend_value (fun _ => None) (JDict []) = Ok 0.
Proof.
  apply (extract_trend_value_no_data (fun _ => None) []).
  left. reflexivity.
Defined.

(** A series whose last point is the text "n/a". *)
Lemma extract_trend_value_text_point_witness :
  _extract_trend_value (fun _ => None)
    (JDict [(u8 "results", JList [JDict [(u8 "data", JList [JInt 3; JStr (u8 "n/a")])]])])
  = Raise ValueError.
Proof.
  apply (extract_trend_value_text_point (fun _ => None)
           [(u8 "results", JList [JDict [(u8 "data", JList [JInt 3; JStr (u8 "n/a")])]])]
           [(u8 "data", JList [JInt 3; JStr (u8 "n/a")])] [] [JInt 3] (u8 "n/a"));
    vm_compute; reflexivity.
Defined.

(** ** posthog_client.py: the requests of a project *)

Lemma advanced_advanced (w : world) (n m : nat) (e e' : list event) :
  advanced (advanced w n e) m e' = advanced w (n + m) (e ++ e').
Proof. apply world_eq; cbn; [reflexivity | lia | now rewrite app_assoc]. Qed.

Lemma attempt_advanced (w : world) (n i : nat) (e : list event) :
  attempt (advanced w n e) i = attempt w (n + i).
Proof. unfold attempt. cbn. now rewrite Nat.add_assoc. Qed.

Lemma io_bind_inv {A B : Type} (c : io A) (k : A -> io B) (w w' : world) (b : B) :
  io_bind c k w = (Ok b, w') ->
  exists a w1, c w = (Ok a, w1) /\ k a w1 = (Ok b, w').
Proof.
  unfold io_bind. destruct (c w) as [[a|e] w1]; [eauto | discriminate].
Qed.

Lemma query_closed (self : PostHogClient) (project_id : pystr) (query : json)
    (w : world) :
  session self = false ->
  _query self project_id query w = (Raise not_initialized, w).
Proof.
  intros Hs. unfold _query, tenacity.retry. cbn [Nat.sub tenacity.retry_from].
  unfold query_attempt. rewrite Hs. reflexivity.
Qed.

Lemma query_once (self : PostHogClient) (project_id : pystr) (query : json)
    (w : world) :
  session self = true -> retryable (attempt w 0) = false ->
  _query self project_id query w
  = (attempt w 0, advanced w 1 [post_of self project_id query]).
Proof.
  intros Hs R. rewrite (query_unfold self project_id query w Hs). cbv zeta.
  rewrite R. reflexivity.
Qed.

(** A step of a fetcher, a query and the reading of its result, when the
    first attempt settles the query. *)
Lemma query_then_once {A : Type} (self : PostHogClient) (project_id : pystr)
    (query : json) (read : json -> pyres A) (w : world) :
  session self = true -> retryable (attempt w 0) = false ->
  io_bind (_query self project_id query) (fun result => lift (read result)) w
  = (bind (attempt w 0) read, advanced w 1 [post_of self project_id query]).
Proof.
  intros Hs R. unfold io_bind. rewrite (query_once _ _ _ _ Hs R).
  destruct (attempt w 0); reflexivity.
Qed.

Lemma costs_le {A : Type} (c : io A) (n m : nat) :
  costs c n -> (n <= m)%nat -> costs c m.
Proof. intros H L w. destruct (H w). split; [assumption | lia]. Qed.

Lemma costs_ret {A : Type} (a : A) : costs (ret a) 0.
Proof. intros w. cbn. split; [reflexivity | lia]. Qed.

Lemma costs_lift {A : Type} (r : pyres A) : costs (lift r) 0.
Proof. intros w. cbn. split; [reflexivity | lia]. Qed.

Lemma costs_bind {A B : Type} (c : io A) (k : A -> io B) (n m : nat) :
  costs c n -> (forall a, costs (k a) m) -> costs (io_bind c k) (n + m).
Proof.
  intros Hc Hk w. unfold io_bind. destruct (Hc w) as [N R].
  destruct (c w) as [[a|e] w1]; cbn [snd] in *.
  - destruct (Hk a w1) as [N' R']. split; [congruence | lia].
  - split; [assumption | lia].
Qed.

Lemma costs_ret_bind {A B : Type} (a : A) (k : A -> io B) (m : nat) :
  costs (k a) m -> costs (io_bind (ret a) k) m.
Proof. intros H w. apply (H w). Qed.

(** A query makes at most three requests. *)
Lemma costs_query (self : PostHogClient) (project_id : pystr) (query : json) :
  costs (_query self project_id query) 3.
Proof.
  intros w. destruct (session self) eqn:Hs.
  - rewrite (query_unfold self project_id query w Hs). cbv zeta.
    destruct (retryable _); [destruct (retryable _)|];
      cbn [snd attempted network requests List.length]; split; auto; lia.
  - rewrite (query_closed _ _ _ _ Hs). cbn. split; [reflexivity | lia].
Qed.

Lemma counts_set_keys (d d' : list (pystr * Z)) (key : pystr) (v v' : Z) :
  map fst d = map fst d' ->
  map fst (counts_set d key v) = map fst (counts_set d' key v').
Proof.
  revert d'. induction d as [|[k x] d IH]; intros [|[k' x'] d']; cbn [map fst];
    try discriminate; [reflexivity|].
  intros [= -> E]. cbn [counts_set]. destruct (str_eqb k' key); cbn [map fst].
  - now rewrite E.
  - f_equal. now apply IH.
Qed.

Lemma counts_get_key (d : list (pystr * Z)) (key : pystr) :
  In key (map fst d) -> counts_get d key <> None.
Proof.
  induction d as [|[k v] d IH]; cbn [map fst In counts_get]; [tauto|].
  intros [-> | H].
  - rewrite (proj2 (str_eqb_eq key key) eq_refl). discriminate.
  - destruct (str_eqb k key); [discriminate | auto].
Qed.

Lemma py_getitem_raises (v : json) (i : Z) (e : exn) :
  py_getitem v i = Raise e -> is_Exception e = true.
Proof.
  assert (S : forall (A : Type) (l : list A) e', seq_index l i = Raise e' ->
                is_Exception e' = true).
  { intros A l e'. unfold seq_index.
    destruct (_ || _); [intros [= <-]; reflexivity|].
    destruct (nth_error _ _); [discriminate | intros [= <-]; reflexivity]. }
  destruct v; cbn [py_getitem]; try (intros [= <-]; reflexivity).
  - destruct (seq_index s i) eqn:E; cbn [bind]; [discriminate|].
    intros [= <-]. eapply S, E.
  - apply S.
Qed.

Section MetricsProps.

Variable int_of_str : pystr -> option Z.
Variable repr_other : json -> pystr.
Variable asyncio_sleep : spec_float -> io unit.

Lemma costs_fetch_active_users self project_id math date_from date_to :
  costs (_fetch_active_users int_of_str self project_id math date_from date_to) 3.
Proof.
  unfold _fetch_active_users. apply (costs_bind _ _ 3 0).
  - apply costs_query.
  - intros a. apply costs_lift.
Qed.

Lemma costs_fetch_event_count self project_id event_name date_from date_to :
  costs (_fetch_event_count int_of_str self project_id event_name date_from date_to) 3.
Proof.
  unfold _fetch_event_count. apply (costs_bind _ _ 3 0).
  - apply costs_query.
  - intros a. apply costs_lift.
Qed.

Lemma costs_fetch_pageviews self project_id date_from date_to :
  costs (_fetch_pageviews int_of_str repr_other self project_id date_from date_to) 3.
Proof.
  unfold _fetch_pageviews. apply (costs_bind _ _ 3 0).
  - apply costs_query.
  - intros a. apply costs_lift.
Qed.

Lemma costs_fetch_event_counts self project_id event_names :
  forall custom_events prev_custom_events,
    costs (fetch_event_counts int_of_str self project_id event_names
             custom_events prev_custom_events)
      (6 * List.length event_names).
Proof.
  induction event_names as [|event_name rest IH]; intros c p.
  - apply costs_ret.
  - cbn [fetch_event_counts List.length].
    eapply costs_le.
    + apply costs_bind; [apply costs_fetch_event_count | intros count].
      apply costs_bind; [apply costs_fetch_event_count | intros prev_count].
      apply IH.
    + lia.
Qed.

(** A project with [n] configured custom events costs at most
    [3 * (8 + 2 * n)] requests, whatever the network does and whether the
    fetch returns or raises: each of its [8 + 2 * n] queries is tried at
    most three times. *)
Theorem fetch_project_metrics_request_budget (self : PostHogClient)
    (project : PostHogProject) (w : world) :
  custom_events project <> [] ->
  (forall seconds, costs (asyncio_sleep seconds) 0) ->
  (requests (snd (fetch_project_metrics int_of_str repr_other asyncio_sleep
                    self project w))
   <= requests w + 3 * (8 + 2 * List.length (custom_events project)))%nat.
Proof.
  intros Hne Hs.
  assert (C : costs (fetch_project_metrics int_of_str repr_other asyncio_sleep
                       self project)
                (3 * (8 + 2 * List.length (custom_events project)))).
  { unfold fetch_project_metrics.
    destruct (custom_events project) as [|e0 names] eqn:E; [contradiction|].
    eapply costs_le.
    - apply costs_bind; [apply Hs | intros _].
      apply costs_bind; [apply costs_fetch_active_users | intros dau].
      apply costs_bind; [apply costs_fetch_active_users | intros wau].
      apply costs_bind; [apply costs_fetch_active_users | intros mau].
      apply costs_bind; [apply costs_fetch_pageviews | intros pageviews].
      apply costs_bind; [apply costs_fetch_active_users | intros prev_dau].
      apply costs_bind; [apply costs_fetch_active_users | intros prev_wau].
      apply costs_bind; [apply costs_fetch_active_users | intros prev_mau].
      apply costs_bind; [apply costs_fetch_pageviews | intros prev_pageviews].
      apply costs_ret_bind.
      apply costs_bind; [apply costs_fetch_event_counts | intros events].
      apply costs_ret.
    - cbn [List.length]. lia. }
  apply (C w).
Qed.

Lemma advanced_0 (w : world) : advanced w 0 [] = w.
Proof. destruct w. unfold advanced. cbn. now rewrite Nat.add_0_r, app_nil_r. Qed.

Lemma attempt_same (w w0 : world) (i : nat) :
  network w0 = network w -> requests w0 = requests w -> attempt w0 i = attempt w i.
Proof. unfold attempt. now intros -> ->. Qed.

Lemma io_bind_ok {A B : Type} (c : io A) (k : A -> io B) (w w1 : world) (a : A) :
  c w = (Ok a, w1) -> io_bind c k w = k a w1.
Proof. unfold io_bind. now intros ->. Qed.

Lemma io_bind_raise {A B : Type} (c : io A) (k : A -> io B) (w w1 : world) (e : exn) :
  c w = (Raise e, w1) -> io_bind c k w = (Raise e, w1).
Proof. unfold io_bind. now intros ->. Qed.

Ltac query_step H :=
  let x := fresh "x" in
  let w1 := fresh "w" in
  let Hx := fresh "H" in
  apply io_bind_inv in H as [x [w1 [Hx H]]];
  cbv beta delta [_fetch_active_users _fetch_pageviews _fetch_event_count] in Hx;
  rewrite query_then_once in Hx by (try assumption; rewrite attempt_advanced; auto);
  injection Hx as _ <-; rewrite advanced_advanced in H.

Lemma fetch_event_counts_once (self : PostHogClient) (project_id : pystr)
    (w0 : world) :
  session self = true ->
  (forall i, retryable (attempt w0 i) = false) ->
  forall event_names n events c p c' p' w',
    fetch_event_counts int_of_str self project_id event_names c p
      (advanced w0 n events) = (Ok (c', p'), w') ->
    w' = advanced w0 (n + 2 * List.length event_names)
           (events ++ map (post_of self project_id)
              (flat_map (fun event_name =>
                 [trends_query event_name (u8 "total") (u8 "-1d") (u8 "now");
                  trends_query event_name (u8 "total") (u8 "-8d") (u8 "-7d")])
                 event_names)).
Proof.
  intros Hs R. induction event_names as [|event_name rest IH];
    intros n events c p c' p' w' H.
  - cbn in H. injection H as _ _ <-. cbn [List.length flat_map map].
    now rewrite Nat.mul_0_r, Nat.add_0_r, app_nil_r.
  - cbn [fetch_event_counts] in H.
    query_step H. query_step H.
    apply IH in H. rewrite H. apply world_eq; cbn [advanced network requests trace].
    + reflexivity.
    + cbn [List.length]. lia.
    + cbn [flat_map map app]. now rewrite <- !app_assoc.
Qed.

(** When no connection fails, a fetch that returns has posted exactly the
    project's queries, each once and in order: the eight core queries, then
    the current and the previous count of each configured event. *)
Theorem fetch_project_metrics_queries (self : PostHogClient)
    (project : PostHogProject) (w w' : world) (m : ProjectMetrics) :
  session self = true ->
  custom_events project <> [] ->
  pauses asyncio_sleep ->
  (forall i, retryable (attempt w i) = false) ->
  fetch_project_metrics int_of_str repr_other asyncio_sleep self project w
  = (Ok m, w') ->
  exists w0,
    asyncio_sleep three_tenths w = (Ok tt, w0)
    /\ w' = advanced w0 (8 + 2 * List.length (custom_events project))
              (map (post_of self (project_id project))
                 (project_queries (custom_events project))).
Proof.
  intros Hs Hne Hp R H.
  destruct (Hp three_tenths w) as [w0 [Es [En Er]]].
  exists w0. split; [exact Es|].
  assert (R0 : forall i, retryable (attempt w0 i) = false)
    by (intros i; rewrite (attempt_same w w0 i En Er); apply R).
  unfold fetch_project_metrics in H.
  destruct (custom_events project) as [|e0 names] eqn:E; [contradiction|].
  rewrite (io_bind_ok _ _ _ _ _ Es) in H.
  rewrite <- (advanced_0 w0) in H.
  query_step H. query_step H. query_step H. query_step H.
  query_step H. query_step H. query_step H.
  query_step H.
  apply io_bind_inv in H as [event_names [w1 [Hn H]]].
  injection Hn as <- <-.
  apply io_bind_inv in H as [[c p] [w2 [He H]]].
  apply (fetch_event_counts_once self (project_id project) w0 Hs R0) in He.
  injection H as _ <-. rewrite He.
  apply world_eq; cbn [advanced network requests trace].
  - reflexivity.
  - lia.
  - unfold project_queries. rewrite map_app. cbn [map app]. reflexivity.
Qed.

(** A fetch whose first attempt raises anything but a [ClientError] ends
    there. *)
Lemma fetch_stops_at_first_raise (self : PostHogClient) (project : PostHogProject)
    (w w0 : world) (x : exn) :
  session self = true ->
  asyncio_sleep three_tenths w = (Ok tt, w0) ->
  attempt w0 0 = Raise x -> is_ClientError x = false ->
  fetch_project_metrics int_of_str repr_other asyncio_sleep self project w
  = (Raise x,
     advanced w0 1
       [post_of self (project_id project)
          (trends_query (u8 "$pageview") (u8 "dau") (u8 "-1d") (u8 "now"))]).
Proof.
  intros Hs Es A0 C.
  unfold fetch_project_metrics. rewrite (io_bind_ok _ _ _ _ _ Es).
  apply io_bind_raise. unfold _fetch_active_users.
  rewrite query_then_once by (try assumption; rewrite A0; exact C).
  now rewrite A0.
Qed.

(** The first query that is answered with an HTTP error ends the fetch.
    When the response to the first request has status 400 or more, the
    fetch raises after this one request and none of the other queries is
    posted: the [PostHogAPIError] "Rate limited" for status 429, the
    [PostHogAPIError] with the status and the first 200 characters of the
    body for another status whose body text can be read, and, when reading
    the body text raises anything but a [ClientError], that exception. *)
Theorem fetch_project_metrics_stops_at_http_error (self : PostHogClient)
    (project : PostHogProject) (w : world)
    (status : Z) (text : pyres pystr) (body : pyres json) :
  session self = true ->
  pauses asyncio_sleep ->
  network w (requests w) = Response status text body ->
  400 <= status ->
  exists w0,
    asyncio_sleep three_tenths w = (Ok tt, w0)
    /\ let stops_with := fun e : exn =>
         fetch_project_metrics int_of_str repr_other asyncio_sleep self project w
         = (Raise e,
            advanced w0 1
              [post_of self (project_id project)
                 (trends_query (u8 "$pageview") (u8 "dau") (u8 "-1d") (u8 "now"))]) in
       (status = 429 -> stops_with (PostHogAPIError (u8 "Rate limited")))
       /\ (forall t, status <> 429 -> text = Ok t ->
             stops_with (PostHogAPIError
                           (u8 "API error " ++ str_of_int status ++ u8 ": "
                              ++ slice_to 200 t)))
       /\ (forall e, status <> 429 -> text = Raise e -> is_ClientError e = false ->
             stops_with e).
Proof.
  intros Hs Hp Hn H4.
  destruct (Hp three_tenths w) as [w0 [Es [En Er]]].
  destruct (http_error_attempt status text body H4) as [R1 [R2 R3]].
  assert (A0 : attempt w0 0 = read_response (Response status text body)).
  { rewrite (attempt_same w w0 0 En Er). unfold attempt.
    now rewrite Nat.add_0_r, Hn. }
  exists w0. split; [exact Es|]. cbv zeta. split; [|split].
  - intros E. apply (fetch_stops_at_first_raise self project w w0 _ Hs Es);
      [now rewrite A0, R1 | reflexivity].
  - intros t Hne Et. apply (fetch_stops_at_first_raise self project w w0 _ Hs Es);
      [now rewrite A0, (R2 t Hne Et) | reflexivity].
  - intros e Hne Et C. apply (fetch_stops_at_first_raise self project w w0 _ Hs Es);
      [now rewrite A0, (R3 e Hne Et) | exact C].
Qed.

Lemma fetch_event_counts_keys (self : PostHogClient) (project_id : pystr)
    (event_names : list pystr) :
  forall c p c' p' w w',
    map fst c = map fst p ->
    fetch_event_counts int_of_str self project_id event_names c p w
    = (Ok (c', p'), w') ->
    map fst c' = map fst p'.
Proof.
  induction event_names as [|event_name rest IH]; intros c p c' p' w w' E H.
  - cbn in H. now injection H as <- <- _.
  - cbn [fetch_event_counts] in H.
    apply io_bind_inv in H as [count [w1 [_ H]]].
    apply io_bind_inv in H as [prev_count [w2 [_ H]]].
    apply IH in H; [exact H|]. now apply counts_set_keys.
Qed.

(** The metrics a fetch returns always carry previous values: the four
    previous core metrics are set, and the previous custom events have the
    keys of the current ones, in the same order, so that a look-up of a
    current event among the previous ones never misses. *)
Theorem fetch_project_metrics_previous_present (self : PostHogClient)
    (project : PostHogProject) (w w' : world) (m : ProjectMetrics) :
  fetch_project_metrics int_of_str repr_other asyncio_sleep self project w
  = (Ok m, w') ->
  prev_dau m <> None /\ prev_wau m <> None /\ prev_mau m <> None
  /\ prev_pageviews_24h m <> None
  /\ map fst (metric_custom_events m) = map fst (prev_custom_events m)
  /\ (forall event count,
        In (event, count) (metric_custom_events m) ->
        counts_get (prev_custom_events m) event <> None).
Proof.
  intros H. unfold fetch_project_metrics in H.
  apply io_bind_inv in H as [u [w0 [_ H]]].
  apply io_bind_inv in H as [d1 [w1 [_ H]]].
  apply io_bind_inv in H as [d7 [w2 [_ H]]].
  apply io_bind_inv in H as [d30 [w3 [_ H]]].
  apply io_bind_inv in H as [views [w4 [_ H]]].
  apply io_bind_inv in H as [p1 [w5 [_ H]]].
  apply io_bind_inv in H as [p7 [w6 [_ H]]].
  apply io_bind_inv in H as [p30 [w7 [_ H]]].
  apply io_bind_inv in H as [pviews [w8 [_ H]]].
  apply io_bind_inv in H as [event_names [w9 [_ H]]].
  apply io_bind_inv in H as [[c p] [w10 [He H]]].
  apply fetch_event_counts_keys in He; [|reflexivity].
  injection H as <- _.
  cbn [prev_dau prev_wau prev_mau prev_pageviews_24h metric_custom_events
       prev_custom_events fst snd].
  repeat split; try discriminate; [exact He|].
  intros event count Hin. apply counts_get_key. rewrite <- He.
  apply (in_map fst) in Hin. exact Hin.
Qed.

End MetricsProps.
(** ** posthog_client.py: the discovery of custom events *)

Lemma read_response_ok (status : Z) (text : pyres pystr) (body : pyres json) :
  status < 400 -> read_response (Response status text body) = body.
Proof.
  intros H. cbn [read_response].
  replace (status =? 429) with false by (symmetry; apply Z.eqb_neq; lia).
  replace (status >=? 400) with false; [reflexivity|].
  symmetry. rewrite Z.geb_leb. apply Z.leb_gt. lia.
Qed.

Section EventDiscovery.

Variable repr_other : json -> pystr.

Lemma event_names_of_table (table : list (json * list json)) :
  event_names_of repr_other (map row_of table)
  = Ok (map (py_str repr_other) (filter py_truthy (map fst table))).
Proof.
  induction table as [|[cell extra] table IH]; [reflexivity|].
  cbn [map event_names_of row_of fst snd py_getitem filter].
  rewrite seq_index_0. cbn [bind].
  destruct (py_truthy cell).
  - rewrite IH. reflexivity.
  - exact IH.
Qed.

Lemma event_names_of_void_row (rows : list json) :
  In (JList []) rows ->
  exists e, event_names_of repr_other rows = Raise e /\ is_Exception e = true.
Proof.
  induction rows as [|r rows IH]; cbn [In]; [tauto|].
  intros [-> | H].
  - exists IndexError. split; reflexivity.
  - destruct (IH H) as [e [E Ex]]. cbn [event_names_of].
    destruct (py_getitem r 0) as [first|e0] eqn:G; cbn [bind].
    + destruct (py_truthy first); [|eauto].
      rewrite E. cbn [bind]. eauto.
    + exists e0. split; [reflexivity|]. eapply py_getitem_raises, G.
Qed.

(** A discovery whose first attempt raises anything but a [ClientError]. *)
Lemma discover_custom_events_first_raise (self : PostHogClient)
    (project_id : pystr) (limit : Z) (w : world) (x : exn) :
  session self = true ->
  attempt w 0 = Raise x -> is_ClientError x = false ->
  _discover_custom_events repr_other self project_id limit w
  = (if is_Exception x then Ok [] else Raise x,
     advanced w 1 [post_of self project_id (custom_events_query limit)]).
Proof.
  intros Hs A0 C.
  unfold _discover_custom_events, discover_custom_events_try.
  rewrite query_then_once by (try assumption; rewrite A0; exact C).
  rewrite A0. cbn [bind]. destruct (is_Exception x); reflexivity.
Qed.

(** A discovery query that is answered with an HTTP error costs one
    request and gives no event names: for status 429, and for another
    status of 400 or more whose body text can be read, the error does not
    leave [_discover_custom_events].  When reading the body text raises
    anything but a [ClientError], it is one request too, and no event
    names unless what was raised is no [Exception], which is raised on. *)
Theorem discover_custom_events_swallows_http_error (self : PostHogClient)
    (project_id : pystr) (limit : Z) (w : world)
    (status : Z) (text : pyres pystr) (body : pyres json) :
  session self = true ->
  network w (requests w) = Response status text body ->
  400 <= status ->
  let after := advanced w 1 [post_of self project_id (custom_events_query limit)] in
  (status = 429 \/ (exists t, text = Ok t) ->
   _discover_custom_events repr_other self project_id limit w = (Ok [], after))
  /\ (forall e, status <> 429 -> text = Raise e -> is_ClientError e = false ->
        _discover_custom_events repr_other self project_id limit w
        = (if is_Exception e then Ok [] else Raise e, after)).
Proof.
  intros Hs Hn H4 after.
  destruct (http_error_attempt status text body H4) as [R1 [R2 R3]].
  assert (A0 : attempt w 0 = read_response (Response status text body))
    by (unfold attempt; now rewrite Nat.add_0_r, Hn).
  split.
  - intros Ht.
    destruct (Z.eq_dec status 429) as [E|Hne].
    + apply (discover_custom_events_first_raise self project_id limit w
               (PostHogAPIError (u8 "Rate limited")) Hs);
        [now rewrite A0, R1 | reflexivity].
    + destruct Ht as [E|[t Et]]; [contradiction|].
      apply (discover_custom_events_first_raise self project_id limit w
               (PostHogAPIError
                  (u8 "API error " ++ str_of_int status ++ u8 ": " ++ slice_to 200 t))
               Hs);
        [now rewrite A0, (R2 t Hne Et) | reflexivity].
  - intros e Hne Et C.
    apply (discover_custom_events_first_raise self project_id limit w e Hs);
      [now rewrite A0, (R3 e Hne Et) | exact C].
Qed.

(** From a response whose result rows each have a first cell, the event
    names are the [str] of the first cells that are truthy, in the order of
    the rows. *)
Theorem discover_custom_events_names (self : PostHogClient)
    (project_id : pystr) (limit : Z) (w : world)
    (status : Z) (text : pyres pystr) (d : list (pystr * json))
    (table : list (json * list json)) :
  session self = true ->
  network w (requests w) = Response status text (Ok (JDict d)) ->
  status < 400 ->
  dict_get d (u8 "results") = Some (JList (map row_of table)) ->
  _discover_custom_events repr_other self project_id limit w
  = (Ok (map (py_str repr_other) (filter py_truthy (map fst table))),
     advanced w 1 [post_of self project_id (custom_events_query limit)]).
Proof.
  intros Hs Hn H4 Hd.
  assert (A0 : attempt w 0 = Ok (JDict d)).
  { unfold attempt. rewrite Nat.add_0_r, Hn. now apply read_response_ok. }
  unfold _discover_custom_events, discover_custom_events_try.
  rewrite query_then_once by (try assumption; rewrite A0; reflexivity).
  rewrite A0. cbn [bind py_get]. rewrite Hd. cbn [py_iter bind].
  rewrite event_names_of_table. reflexivity.
Qed.

(** One result row that is an empty list voids the discovery: whatever the
    other rows hold, no event name is returned. *)
Theorem discover_custom_events_void_row (self : PostHogClient)
    (project_id : pystr) (limit : Z) (w : world)
    (status : Z) (text : pyres pystr) (d : list (pystr * json))
    (rows : list json) :
  session self = true ->
  network w (requests w) = Response status text (Ok (JDict d)) ->
  status < 400 ->
  dict_get d (u8 "results") = Some (JList rows) ->
  In (JList []) rows ->
  fst (_discover_custom_events repr_other self project_id limit w) = Ok [].
Proof.
  intros Hs Hn H4 Hd Hin.
  assert (A0 : attempt w 0 = Ok (JDict d)).
  { unfold attempt. rewrite Nat.add_0_r, Hn. now apply read_response_ok. }
  destruct (event_names_of_void_row rows Hin) as [e [E Ex]].
  unfold _discover_custom_events, discover_custom_events_try.
  rewrite query_then_once by (try assumption; rewrite A0; reflexivity).
  rewrite A0. cbn [bind py_get]. rewrite Hd. cbn [py_iter bind].
  rewrite E, Ex. reflexivity.
Qed.

End EventDiscovery.

(** ** posthog_client.py: the session and the project listing *)

Section Listing.

Variable repr_other : json -> pystr.

(** On a client whose session was never opened, a query and the project
    discovery raise the [RuntimeError] at once: no request is made, nothing
    is retried and the world is left as it was. *)
Theorem closed_session_raises (self : PostHogClient) (project_id : pystr)
    (query : json) (w : world) :
  session self = false ->
  _query self project_id query w = (Raise not_initialized, w)
  /\ discover_projects repr_other self w = (Raise not_initialized, w).
Proof.
  intros Hs. split; [now apply query_closed|].
  unfold discover_projects. rewrite Hs. reflexivity.
Qed.

(** The project discovery makes exactly one GET, whatever comes back: it
    is never retried.  A connection failure reaches the caller as the
    [ClientError] itself, and a status of 400 or more (429 included) as a
    [PostHogAPIError] with the status and the first 200 characters of
    the body. *)
Theorem discover_projects_one_request (self : PostHogClient) (w : world) :
  session self = true ->
  snd (discover_projects repr_other self w)
  = advanced w 1 [Get (base_url self ++ u8 "/api/projects/")]
  /\ (forall detail,
        network w (requests w) = ConnectionFailed detail ->
        fst (discover_projects repr_other self w) = Raise (ClientError detail))
  /\ (forall status t body,
        network w (requests w) = Response status (Ok t) body ->
        400 <= status ->
        fst (discover_projects repr_other self w)
        = Raise (PostHogAPIError
                   (u8 "Failed to list projects: " ++ str_of_int status
                      ++ u8 " - " ++ slice_to 200 t))).
Proof.
  intros Hs. unfold discover_projects. rewrite Hs. cbn [negb request].
  split; [|split].
  - destruct (network w (requests w)) as [detail|status text body]; cbn [snd].
    + apply world_eq; cbn; auto; lia.
    + destruct (status >=? 400); cbn [snd]; apply world_eq; cbn; auto; lia.
  - intros detail ->. reflexivity.
  - intros status t body -> H4.
    replace (status >=? 400) with true; [reflexivity|].
    symmetry. apply Z.geb_le. lia.
Qed.

(** A listing that is a JSON object without a "results" key is walked by
    its keys: unless the object is empty, discovery raises the
    [AttributeError] of calling [get] on a [str]. *)
Theorem discovery_of_object_without_results (d : list (pystr * json)) :
  dict_get d (u8 "results") = None ->
  projects_of_data repr_other (JDict d)
  = match d with
    | [] => Ok []
    | _ :: _ => Raise AttributeError
    end.
Proof.
  intros H. unfold projects_of_data, discovery_results. rewrite H.
  cbn [py_iter bind]. destruct d as [|[k v] d]; reflexivity.
Qed.

End Listing.

(** A client that never entered its context. *)
Lemma closed_session_raises_witness :
  _query (PostHogClient__init__ sample_config) (u8 "1") JNull unreachable
  = (Raise not_initialized, unreachable)
  /\ discover_projects (fun _ => []) (PostHogClient__init__ sample_config) unreachable
     = (Raise not_initialized, unreachable).
Proof.
  apply (closed_session_raises (fun _ => [])
           (PostHogClient__init__ sample_config) (u8 "1") JNull unreachable eq_refl).
Defined.

(** An unreachable host: one GET, and the [ClientError] comes back. *)
Lemma discover_projects_one_request_witness :
  snd (discover_projects (fun _ => []) sample_client unreachable)
  = advanced unreachable 1 [Get (base_url sample_client ++ u8 "/api/projects/")].
Proof.
  apply (proj1 (discover_projects_one_request (fun _ => []) sample_client
                  unreachable eq_refl)).
Defined.

(** An error object in place of the listing. *)
Lemma discovery_of_object_without_results_witness :
  projects_of_data (fun _ => []) (JDict [(u8 "detail", JStr (u8 "Not found."))])
  = Raise AttributeError.
Proof.
  apply (discovery_of_object_without_results (fun _ => [])
           [(u8 "detail", JStr (u8 "Not found."))]).
  vm_compute. reflexivity.
Defined.

(** A rate-limited discovery query. *)
Lemma discover_custom_events_swallows_http_error_witness :
  _discover_custom_events (fun _ => []) sample_client (u8 "1") 10
    (answering 429 (u8 "slow down"))
  = (Ok [],
     advanced (answering 429 (u8 "slow down")) 1
       [post_of sample_client (u8 "1") (custom_events_query 10)]).
Proof.
  apply (proj1 (discover_custom_events_swallows_http_error (fun _ => []) sample_client
                  (u8 "1") 10 (answering 429 (u8 "slow down"))
                  429 (Ok (u8 "slow down")) (Ok JNull) eq_refl eq_refl
                  ltac:(lia))).
  left. reflexivity.
Defined.

(** A project with one configured event on a network that answers every
    query with an empty object: ten queries, each posted once. *)
Lemma fetch_project_metrics_queries_witness :
  exists m w',
    fetch_project_metrics (fun _ => None) (fun _ => []) sample_sleep
      sample_client sample_project_with_event (answering_json (JDict []))
    = (Ok m, w')
    /\ w' = advanced (answering_json (JDict [])) 10
              (map (post_of sample_client (u8 "7")) (project_queries [u8 "signup"])).
Proof.
  destruct (fetch_project_metrics (fun _ => None) (fun _ => []) sample_sleep
              sample_client sample_project_with_event (answering_json (JDict [])))
    as [[m|e] w'] eqn:E.
  - exists m, w'. split; [reflexivity|].
    destruct (fetch_project_metrics_queries (fun _ => None) (fun _ => []) sample_sleep
                sample_client sample_project_with_event (answering_json (JDict []))
                w' m eq_refl ltac:(discriminate)
                ltac:(intros s w; exists w; repeat split)
                ltac:(intros i; reflexivity) E)
      as [w0 [Es Ew]].
    injection Es as <-. exact Ew.
  - exfalso. vm_compute in E. discriminate.
Defined.

(** The same project on a network where no connection succeeds: the first
    query gives up after three requests. *)
Lemma fetch_project_metrics_request_budget_witness :
  (requests (snd (fetch_project_metrics (fun _ => None) (fun _ => []) sample_sleep
                    sample_client sample_project_with_event unreachable))
   <= 30)%nat.
Proof.
  apply (fetch_project_metrics_request_budget (fun _ => None) (fun _ => [])
           sample_sleep sample_client sample_project_with_event unreachable).
  - discriminate.
  - intros seconds w. cbn. split; [reflexivity | lia].
Defined.

(** A server error on the first query. *)
Lemma fetch_project_metrics_stops_at_http_error_witness :
  fetch_project_metrics (fun _ => None) (fun _ => []) sample_sleep
    sample_client sample_project_with_event (answering 500 (u8 "boom"))
  = (Raise (PostHogAPIError (u8 "API error 500: boom")),
     advanced (answering 500 (u8 "boom")) 1
       [post_of sample_client (u8 "7")
          (trends_query (u8 "$pageview") (u8 "dau") (u8 "-1d") (u8 "now"))]).
Proof.
  destruct (fetch_project_metrics_stops_at_http_error (fun _ => None) (fun _ => [])
              sample_sleep sample_client sample_project_with_event
              (answering 500 (u8 "boom")) 500 (Ok (u8 "boom")) (Ok JNull)
              eq_refl ltac:(intros s w; exists w; repeat split) eq_refl
              ltac:(lia))
    as [w0 [Es [_ [H _]]]].
  injection Es as <-.
  exact (H (u8 "boom") ltac:(lia) eq_refl).
Defined.

(** The metrics of the sample project: its event has a previous count. *)
Lemma fetch_project_metrics_previous_present_witness :
  exists m w',
    fetch_project_metrics (fun _ => None) (fun _ => []) sample_sleep
      sample_client sample_project_with_event (answering_json (JDict []))
    = (Ok m, w')
    /\ map fst (metric_custom_events m) = map fst (prev_custom_events m).
Proof.
  destruct (fetch_project_metrics (fun _ => None) (fun _ => []) sample_sleep
              sample_client sample_project_with_event (answering_json (JDict [])))
    as [[m|e] w'] eqn:E.
  - exists m, w'. split; [reflexivity|].
    apply (fetch_project_metrics_previous_present (fun _ => None) (fun _ => [])
             sample_sleep sample_client sample_project_with_event
             (answering_json (JDict [])) w' m E).
  - exfalso. vm_compute in E. discriminate.
Defined.

(** Two rows, the second with a null event name. *)
Lemma discover_custom_events_names_witness :
  fst (_discover_custom_events (fun _ => []) sample_client (u8 "1") 10
         (answering_json
            (JDict [(u8 "results",
                     JList [JList [JStr (u8 "signup"); JInt 3];
                            JList [JNull; JInt 1]])])))
  = Ok [u8 "signup"].
Proof.
  rewrite (discover_custom_events_names (fun _ => []) sample_client (u8 "1") 10
             (answering_json
                (JDict [(u8 "results",
                         JList [JList [JStr (u8 "signup"); JInt 3];
                                JList [JNull; JInt 1]])]))
             200 (Ok [])
             [(u8 "results",
               JList [JList [JStr (u8 "signup"); JInt 3]; JList [JNull; JInt 1]])]
             [(JStr (u8 "signup"), [JInt 3]); (JNull, [JInt 1])]
             eq_refl eq_refl ltac:(lia) eq_refl).
  reflexivity.
Defined.

(** A good row followed by an empty one. *)
Lemma discover_custom_events_void_row_witness :
  fst (_discover_custom_events (fun _ => []) sample_client (u8 "1") 10
         (answering_json
            (JDict [(u8 "results",
                     JList [JList [JStr (u8 "signup"); JInt 3]; JList []])])))
  = Ok [].
Proof.
  apply (discover_custom_events_void_row (fun _ => []) sample_client (u8 "1") 10
           (answering_json
              (JDict [(u8 "results",
                       JList [JList [JStr (u8 "signup"); JInt 3]; JList []])]))
           200 (Ok [])
           [(u8 "results", JList [JList [JStr (u8 "signup"); JInt 3]; JList []])]
           [JList [JStr (u8 "signup"); JInt 3]; JList []]
           eq_refl eq_refl ltac:(lia) eq_refl).
  right. left. reflexivity.
Defined.

(** ** posthog_client.py: a pageview row without a views cell *)

Section ShortRows.

Variable int_of_str : pystr -> option Z.
Variable repr_other : json -> pystr.

Lemma top_pages_of_app_table (rows rest : list json) (table : list (json * Z)) :
  Forall2 (row_reads int_of_str) rows table ->
  top_pages_of int_of_str repr_other (rows ++ rest)
  = (tl <- top_pages_of int_of_str repr_other rest ;;
     Ok (map (page_of repr_other) (filter has_url table) ++ tl)).
Proof.
  induction 1 as [|r uv rows table [cell [extra [-> Hv]]] _ IH].
  - cbn [app filter map]. destruct (top_pages_of _ _ rest); reflexivity.
  - cbn [app top_pages_of py_getitem filter].
    rewrite seq_index_0, seq_index_1. cbn [bind].
    unfold has_url at 1. destruct (py_truthy (fst uv)).
    + rewrite Hv. cbn [bind]. rewrite IH.
      destruct (top_pages_of _ _ rest); reflexivity.
    + exact IH.
Qed.

Lemma sum_views_app_table (rows rest : list json) (table : list (json * Z)) :
  Forall2 (row_reads int_of_str) rows table ->
  forall acc,
    sum_views int_of_str (rows ++ rest) acc
    = sum_views int_of_str rest (acc + sum_Z (map snd table)).
Proof.
  induction 1 as [|r uv rows table [cell [extra [-> Hv]]] _ IH]; intros acc.
  - cbn. f_equal. lia.
  - cbn [app sum_views py_len bind].
    assert (G : (Z.of_nat (List.length (fst uv :: cell :: extra)) >? 1) = true)
      by (apply Z.gtb_gt; cbn [List.length]; lia).
    rewrite G. cbn [py_getitem]. rewrite seq_index_1. cbn [bind].
    rewrite Hv. cbn [bind]. rewrite IH. unfold sum_Z. cbn [map fold_right].
    f_equal. lia.
Qed.

(** A row that has a URL but no views cell raises [IndexError] when it is
    among the first five rows: the guard [len(r) > 1] protects the total
    only.  From the sixth row on, the same row is left out of the total
    and nothing is raised. *)
Theorem pageviews_short_row (d : list (pystr * json)) (good rest : list json)
    (table : list (json * Z)) (url : json) :
  dict_get d (u8 "results") = Some (JList (good ++ JList [url] :: rest)) ->
  Forall2 (row_reads int_of_str) good table ->
  py_truthy url = true ->
  ((List.length good < 5)%nat ->
   pageviews_of_result int_of_str repr_other (JDict d) = Raise IndexError)
  /\ ((5 <= List.length good)%nat ->
      forall table',
        Forall2 (row_reads int_of_str) rest table' ->
        pageviews_of_result int_of_str repr_other (JDict d)
        = Ok (sum_Z (map snd table) + sum_Z (map snd table'),
              map (page_of repr_other) (filter has_url (firstn 5 table)))).
Proof.
  intros Hd Hg Hu. unfold pageviews_of_result. cbn [py_get bind]. rewrite Hd.
  cbn [py_slice_to py_iter bind]. rewrite firstn_app. split.
  - intros L. rewrite (firstn_all2 good) by lia.
    destruct (5 - List.length good)%nat as [|k] eqn:K; [lia|].
    cbn [firstn]. rewrite (top_pages_of_app_table _ _ table Hg).
    cbn [top_pages_of py_getitem]. rewrite seq_index_0. cbn [bind].
    rewrite Hu. reflexivity.
  - intros L table' Hr.
    replace (5 - List.length good)%nat with 0%nat by lia.
    rewrite firstn_O, app_nil_r.
    rewrite (top_pages_of_table int_of_str repr_other (firstn 5 good) (firstn 5 table))
      by (now apply Forall2_firstn).
    cbn [bind]. rewrite (sum_views_app_table _ _ table Hg).
    cbn [sum_views py_len bind].
    change (Z.of_nat (List.length [url]) >? 1) with false. cbv iota.
    rewrite (sum_views_table int_of_str rest table' Hr).
    cbn [bind]. reflexivity.
Qed.

End ShortRows.

(** A second row that has a URL only. *)
Lemma pageviews_short_row_witness :
  pageviews_of_result (fun _ => None) (fun _ => [])
    (JDict [(u8 "results",
             JList [JList [JStr (u8 "/a"); JInt 7]; JList [JStr (u8 "/b")]])])
  = Raise IndexError.
Proof.
  apply (proj1 (pageviews_short_row (fun _ => None) (fun _ => [])
                  [(u8 "results",
                    JList [JList [JStr (u8 "/a"); JInt 7]; JList [JStr (u8 "/b")]])]
                  [JList [JStr (u8 "/a"); JInt 7]] [] [(JStr (u8 "/a"), 7)]
                  (JStr (u8 "/b")) eq_refl
                  ltac:(repeat constructor; exists (JInt 7), []; split; reflexivity)
                  eq_refl)).
  cbn. lia.
Defined.

(** ** Decimal digits *)

Lemma u8_String (a : ascii) (s : string) :
  (N_of_ascii a <? 128)%N = true -> u8 (String a s) = N_of_ascii a :: u8 s.
Proof.
  intros H. unfold u8, bytes_of_string.
  cbn [list_ascii_of_string map utf8_decode]. now rewrite H.
Qed.

Lemma uint_digits (d : Decimal.uint) :
  Forall (fun c => is_digit c = true) (u8 (NilEmpty.string_of_uint d)).
Proof.
  induction d; cbn [NilEmpty.string_of_uint];
    [constructor | rewrite u8_String by reflexivity;
                   constructor; [reflexivity | assumption] ..].
Qed.

Lemma uint_nonempty (d : Decimal.uint) :
  d <> Decimal.Nil -> u8 (NilEmpty.string_of_uint d) <> [].
Proof.
  destruct d; [congruence | intros _; cbn [NilEmpty.string_of_uint];
                            rewrite u8_String by reflexivity; discriminate ..].
Qed.

Lemma str_of_int_pos (p : positive) :
  str_of_int (Z.pos p) = u8 (NilEmpty.string_of_uint (Pos.to_uint p)).
Proof.
  unfold str_of_int. cbn [Z.to_int NilZero.string_of_int].
  pose proof (DecimalPos.Unsigned.to_uint_nonnil p) as N.
  destruct (Pos.to_uint p); [congruence | reflexivity ..].
Qed.

Lemma str_of_int_neg (p : positive) :
  str_of_int (Z.neg p) = 45%N :: str_of_int (Z.pos p).
Proof.
  rewrite str_of_int_pos. unfold str_of_int.
  cbn [Z.to_int NilZero.string_of_int].
  rewrite u8_String by reflexivity.
  pose proof (DecimalPos.Unsigned.to_uint_nonnil p) as N.
  destruct (Pos.to_uint p); [congruence | reflexivity ..].
Qed.

(** [str(n)] of a natural number is a non-empty run of digits. *)
Lemma str_of_int_digits (n : Z) :
  0 <= n ->
  Forall (fun c => is_digit c = true) (str_of_int n) /\ str_of_int n <> [].
Proof.
  destruct n as [|p|p]; [| |lia]; intros _.
  - split; [repeat constructor | discriminate].
  - rewrite str_of_int_pos. split; [apply uint_digits|].
    apply uint_nonempty, DecimalPos.Unsigned.to_uint_nonnil.
Qed.

Lemma str_of_int_nonempty (n : Z) : str_of_int n <> [].
Proof.
  destruct n as [|p|p].
  - discriminate.
  - apply str_of_int_digits. lia.
  - rewrite str_of_int_neg. discriminate.
Qed.

(** ** posthog_client.py: what counts as a project id *)

Section ScalarIds.

Variable repr_other : json -> pystr.

(** An id that is null, a boolean or an integer counts as an id, zero and
    false included: the entry is kept and the project's id is the [str] of
    the value ("None", "False", "0"). *)
Theorem discovery_keeps_scalar_ids (entry : list (pystr * json)) (v : json) :
  dict_get entry (u8 "id") = Some v ->
  v = JNull \/ (exists b, v = JBool b) \/ (exists n, v = JInt n) ->
  projects_of_data repr_other (JList [JDict entry])
  = Ok [{| name := entry_name repr_other entry;
           project_id := py_str repr_other v;
           color := 3447003;
           custom_events := [] |}]
  /\ py_str repr_other JNull = u8 "None"
  /\ py_str repr_other (JBool false) = u8 "False"
  /\ py_str repr_other (JInt 0) = u8 "0".
Proof.
  intros H Hv. split; [|repeat split].
  assert (K : has_id repr_other entry = true).
  { unfold has_id, entry_id. rewrite H.
    destruct Hv as [-> | [[b ->] | [n ->]]]; cbn [py_str py_truthy].
    - reflexivity.
    - destruct b; reflexivity.
    - pose proof (str_of_int_nonempty n) as N.
      destruct (str_of_int n); [congruence | reflexivity]. }
  unfold projects_of_data, discovery_results. cbn [py_iter bind].
  change [JDict entry] with (map JDict [entry]).
  rewrite discover_loop_entries. unfold enumerate_from.
  cbn [List.length seq combine filter snd]. rewrite K.
  cbn [map app]. unfold project_at, entry_id. cbn [fst snd]. rewrite H.
  reflexivity.
Qed.

End ScalarIds.

(** A listing entry whose id is 0. *)
Lemma discovery_keeps_scalar_ids_witness :
  projects_of_data (fun _ => []) (JList [JDict [(u8 "id", JInt 0);
                                                (u8 "name", JStr (u8 "Zero"))]])
  = Ok [{| name := JStr (u8 "Zero"); project_id := u8 "0"; color := 3447003;
           custom_events := [] |}].
Proof.
  apply (discovery_keeps_scalar_ids (fun _ => [])
           [(u8 "id", JInt 0); (u8 "name", JStr (u8 "Zero"))] (JInt 0) eq_refl).
  right. right. exists 0. reflexivity.
Defined.
(** ** formatters.py: format_number *)

Lemma split_nonempty (sep : codepoint) (s : pystr) : split sep s <> [].
Proof.
  induction s as [|c s IH]; cbn [split]; [discriminate|].
  destruct (c =? sep)%N; [discriminate|].
  destruct (split sep s); [congruence | discriminate].
Qed.

Lemma split_no_sep (sep : codepoint) (s : pystr) :
  Forall (fun c => (c =? sep)%N = false) s -> split sep s = [s].
Proof.
  induction 1 as [|c s Hc _ IH]; [reflexivity|].
  cbn [split]. now rewrite Hc, IH.
Qed.

Lemma split_app_sep (sep : codepoint) (x y : pystr) :
  split sep (x ++ sep :: y) = split sep x ++ split sep y.
Proof.
  induction x as [|c x IH]; cbn [app split].
  - now rewrite N.eqb_refl.
  - destruct (c =? sep)%N; [now rewrite IH|].
    rewrite IH. pose proof (split_nonempty sep x) as N.
    destruct (split sep x); [congruence | reflexivity].
Qed.

Lemma digit_not_comma (c : codepoint) : is_digit c = true -> (c =? comma)%N = false.
Proof.
  unfold is_digit, comma. intros H. apply andb_true_iff in H as [H1 H2].
  apply N.leb_le in H1. apply N.eqb_neq. lia.
Qed.

(** The grouping, on the digits from the right. *)
Lemma group3_rev_groups (n : nat) :
  forall r : pystr,
    (List.length r <= n)%nat -> r <> [] ->
    Forall (fun c => is_digit c = true) r ->
    exists g gs,
      split comma (List.rev (group3_rev r)) = g :: gs
      /\ List.concat (g :: gs) = List.rev r
      /\ (1 <= List.length g <= 3)%nat
      /\ Forall (fun x => List.length x = 3%nat) gs.
Proof.
  induction n as [|n IH]; intros r L Hne Hd.
  - destruct r; [congruence | cbn in L; lia].
  - assert (NC : forall l : pystr,
               Forall (fun c => is_digit c = true) l ->
               Forall (fun c => (c =? comma)%N = false) (List.rev l)).
    { intros l H. apply Forall_rev. eapply Forall_impl; [|exact H].
      intros c. apply digit_not_comma. }
    assert (Small : (List.length r <= 3)%nat ->
                    exists g gs,
                      split comma (List.rev r) = g :: gs
                      /\ List.concat (g :: gs) = List.rev r
                      /\ (1 <= List.length g <= 3)%nat
                      /\ Forall (fun x => List.length x = 3%nat) gs).
    { intros L3. exists (List.rev r), []. rewrite (split_no_sep _ _ (NC r Hd)).
      cbn [List.concat]. rewrite app_nil_r, length_rev.
      repeat split; auto.
      destruct r; [congruence | cbn; lia]. }
    destruct r as [|a [|b [|c [|d rest]]]]; [congruence | | | |];
      try (apply Small; cbn; lia).
    change (group3_rev (a :: b :: c :: d :: rest))
      with (a :: b :: c :: comma :: group3_rev (d :: rest)).
    destruct (IH (d :: rest)) as [g [gs [S [C [G1 G3]]]]].
    { cbn [List.length] in *. lia. }
    { discriminate. }
    { now inversion Hd as [|? ? _ [|? ? _ [|? ? _ H]]]. }
    exists g, (gs ++ [[c; b; a]]).
    replace (List.rev (a :: b :: c :: comma :: group3_rev (d :: rest)))
      with (List.rev (group3_rev (d :: rest)) ++ comma :: [c; b; a])
      by (cbn [List.rev]; now rewrite <- !app_assoc).
    rewrite split_app_sep, S.
    assert (D3 : Forall (fun x => (x =? comma)%N = false) [c; b; a]).
    { inversion Hd as [|? ? Ha [|? ? Hb [|? ? Hc _]]]; subst.
      repeat constructor; now apply digit_not_comma. }
    rewrite (split_no_sep _ _ D3).
    split; [reflexivity|]. split; [|split; [exact G1|]].
    + change (List.concat (g :: gs ++ [[c; b; a]]))
        with (List.concat ((g :: gs) ++ [[c; b; a]])).
      rewrite concat_app, C. cbn [List.concat List.rev].
      now rewrite app_nil_r, <- !app_assoc.
    + apply Forall_app. split; [exact G3 | repeat constructor].
Qed.

(** [format_number] writes the digits of a natural number in groups
    divided by commas: taken together the groups are [str(n)], the first
    has one to three digits and every other has three.  A negative number
    is written as the minus sign and its absolute value. *)
Theorem format_number_groups (n : Z) :
  (n < 0 -> format_number n = u8 "-" ++ format_number (- n))
  /\ (0 <= n ->
      exists g gs,
        split comma (format_number n) = g :: gs
        /\ List.concat (g :: gs) = str_of_int n
        /\ (1 <= List.length g <= 3)%nat
        /\ Forall (fun x => List.length x = 3%nat) gs).
Proof.
  split.
  - intros H. unfold format_number.
    replace (n <? 0) with true by (symmetry; apply Z.ltb_lt; lia).
    replace (- n <? 0) with false by (symmetry; apply Z.ltb_ge; lia).
    rewrite Z.abs_opp. reflexivity.
  - intros H. unfold format_number.
    replace (n <? 0) with false by (symmetry; apply Z.ltb_ge; lia).
    rewrite Z.abs_eq by lia. cbn [app].
    destruct (str_of_int_digits n H) as [Hd Hne].
    destruct (group3_rev_groups (List.length (List.rev (str_of_int n)))
                (List.rev (str_of_int n)) (le_n _))
      as [g [gs [S [C [G1 G3]]]]].
    + intros E. apply Hne. apply (f_equal (@List.rev _)) in E.
      now rewrite rev_involutive in E.
    + now apply Forall_rev.
    + exists g, gs. rewrite rev_involutive in C. auto.
Qed.

(** Seven digits: three groups. *)
Lemma format_number_groups_witness :
  exists g gs,
    split comma (format_number 1234567) = g :: gs
    /\ List.concat (g :: gs) = str_of_int 1234567
    /\ (1 <= List.length g <= 3)%nat
    /\ Forall (fun x => List.length x = 3%nat) gs.
Proof.
  apply (proj2 (format_number_groups 1234567)). lia.
Defined.

(** ** formatters.py: the page shown for a top page *)

(** The page shown in the digest has at most 40 characters.  It is
    the same for a URL and for that URL cut to its first 50 characters, as
    [_fetch_pageviews] stores it: the cut to 50 never shows. *)
Theorem display_page_bounded (page : pystr) (views : Z) :
  len (display_page page) <= 40
  /\ display_page (slice_to 50 page) = display_page page
  /\ page_line (slice_to 50 page, views) = page_line (page, views).
Proof.
  assert (B : len (display_page page) <= 40).
  { unfold display_page. destruct (len page <=? 40) eqn:L.
    - now apply Z.leb_le in L.
    - apply Z.leb_gt in L. unfold len, slice_to in *.
      rewrite length_app, length_firstn. cbn [List.length u8].
      change (List.length (u8 "...")) with 3%nat. lia. }
  assert (I : display_page (slice_to 50 page) = display_page page).
  { unfold display_page, slice_to, len.
    destruct (Z.of_nat (List.length page) <=? 40) eqn:L.
    - apply Z.leb_le in L. rewrite (firstn_all2 page) by lia. now rewrite (proj2 (Z.leb_le _ _) L).
    - apply Z.leb_gt in L. rewrite length_firstn.
      replace (Z.of_nat (Nat.min 50 (List.length page)) <=? 40) with false
        by (symmetry; apply Z.leb_gt; lia).
      rewrite firstn_firstn. reflexivity. }
  split; [exact B|]. split; [exact I|].
  unfold page_line. cbn [fst snd]. now rewrite I.
Qed.

(** ** formatters.py: the summary *)

Lemma py_sum_zeros (l : list Z) : Forall (fun x => x = 0) l -> py_sum l = 0.
Proof.
  unfold py_sum. induction 1 as [|x l -> _ IH]; [reflexivity | exact IH].
Qed.

Section Summary.

Variable repr_other : json -> pystr.

(** With no result there is no summary (the empty string).  When no
    project has a previous value other than 0, for the daily users and for
    the pageviews, the summary shows the two totals alone, with no arrow and
    no percentage. *)
Theorem format_summary_without_previous
    (results : list (PostHogProject * ProjectMetrics)) :
  format_summary [] = Ok []
  /\ (results <> [] ->
      Forall (fun pm =>
                (prev_dau (snd pm) = None \/ prev_dau (snd pm) = Some 0)
                /\ (prev_pageviews_24h (snd pm) = None
                    \/ prev_pageviews_24h (snd pm) = Some 0)) results ->
      format_summary results
      = Ok (join [newline]
              [[128202%N] ++ u8 " **Summary (All Projects)**";
               u8 "Total DAU: "
                 ++ format_number (py_sum (map (fun pm => dau (snd pm)) results));
               u8 "Total Pageviews: "
                 ++ format_number
                      (py_sum (map (fun pm => pageviews_24h (snd pm)) results))])).
Proof.
  split; [reflexivity|]. intros Hne H.
  assert (Z1 : py_sum (map (fun pm => or_zero (prev_dau (snd pm))) results) = 0).
  { apply py_sum_zeros. apply Forall_map. eapply Forall_impl; [|exact H].
    intros pm [[-> | ->] _]; reflexivity. }
  assert (Z2 : py_sum (map (fun pm => or_zero (prev_pageviews_24h (snd pm))) results) = 0).
  { apply py_sum_zeros. apply Forall_map. eapply Forall_impl; [|exact H].
    intros pm [_ [-> | ->]]; reflexivity. }
  unfold format_summary. destruct results as [|pm results]; [congruence|].
  rewrite Z1, Z2. reflexivity.
Qed.

End Summary.

(** One project in its first week. *)
Lemma format_summary_without_previous_witness :
  format_summary
    [(sample_project (u8 "1"),
      {| dau := 1200; wau := 0; mau := 0; pageviews_24h := 3400;
         top_pages := []; metric_custom_events := [];
         prev_dau := Some 0; prev_wau := None; prev_mau := None;
         prev_pageviews_24h := None; prev_custom_events := [] |})]
  = Ok (join [newline]
          [[128202%N] ++ u8 " **Summary (All Projects)**";
           u8 "Total DAU: " ++ format_number 1200;
           u8 "Total Pageviews: " ++ format_number 3400]).
Proof.
  apply (proj2 (format_summary_without_previous
                  [(sample_project (u8 "1"),
                    {| dau := 1200; wau := 0; mau := 0; pageviews_24h := 3400;
                       top_pages := []; metric_custom_events := [];
                       prev_dau := Some 0; prev_wau := None; prev_mau := None;
                       prev_pageviews_24h := None; prev_custom_events := [] |})])).
  - discriminate.
  - constructor; [|constructor]. cbn [snd prev_dau prev_pageviews_24h].
    split; [right; reflexivity | left; reflexivity].
Defined.

(** ** formatters.py: the digest leaves nothing out *)

Lemma starts_with_app (n post : pystr) : starts_with n (n ++ post) = true.
Proof.
  induction n as [|a n IH]; [reflexivity|].
  cbn [app starts_with]. now rewrite N.eqb_refl, IH.
Qed.

Lemma contains_here (n s : pystr) : starts_with n s = true -> contains n s = true.
Proof. intros H. destruct s; cbn [contains]; now rewrite H. Qed.

Lemma contains_app (pre n post : pystr) : contains n (pre ++ n ++ post) = true.
Proof.
  induction pre as [|a pre IH]; cbn [app].
  - apply contains_here, starts_with_app.
  - cbn [contains]. rewrite IH. apply orb_true_r.
Qed.

Lemma join_In (sep : pystr) (lines : list pystr) (x : pystr) :
  In x lines -> exists pre post, join sep lines = pre ++ x ++ post.
Proof.
  induction lines as [|l rest IH]; cbn [In]; [tauto|].
  intros [-> | H].
  - cbn [join]. destruct rest.
    + exists [], []. now rewrite app_nil_r.
    + exists [], (sep ++ join sep (p :: rest)). reflexivity.
  - destruct (IH H) as [pre [post E]]. cbn [join].
    destruct rest as [|l' rest']; [contradiction|].
    rewrite E. exists (l ++ sep ++ pre), post. now rewrite <- !app_assoc.
Qed.

Lemma join_first (sep first : pystr) (rest : list pystr) :
  exists post, join sep (first :: rest) = first ++ post.
Proof.
  cbn [join]. destruct rest; [exists []; now rewrite app_nil_r | eauto].
Qed.

Lemma starts_with_join (sep first : pystr) (rest : list pystr) :
  starts_with first (join sep (first :: rest)) = true.
Proof. destruct (join_first sep first rest) as [post ->]. apply starts_with_app. Qed.

Lemma contains_join (sep : pystr) (lines : list pystr) (x : pystr) :
  In x lines -> contains x (join sep lines) = true.
Proof. intros H. destruct (join_In sep lines x H) as [pre [post ->]]. apply contains_app. Qed.

Section Digest.

Variable repr_other : json -> pystr.

Lemma project_sections_In (results : list (PostHogProject * ProjectMetrics)) :
  forall sections,
    project_sections repr_other results = Ok sections ->
    forall p m, In (p, m) results ->
      exists section,
        format_project_section repr_other p m = Ok section /\ In section sections.
Proof.
  induction results as [|[p0 m0] results IH]; intros sections H p m Hin;
    [contradiction|].
  cbn [project_sections] in H.
  destruct (format_project_section repr_other p0 m0) as [s0|] eqn:E0;
    cbn [bind] in H; [|discriminate].
  destruct (project_sections repr_other results) as [tl|]; cbn [bind] in H;
    [|discriminate].
  injection H as <-. destruct Hin as [[= -> ->] | Hin].
  - exists s0. split; [exact E0|]. right. left. reflexivity.
  - destruct (IH tl eq_refl p m Hin) as [s [Es Is]].
    exists s. split; [exact Es|]. right. right. exact Is.
Qed.

(** A digest that is produced begins with the title line of the day and
    leaves nothing out: the section of every project fetched and the
    section of every error are in the message.  With no results the digest
    is always produced. *)
Theorem format_digest_complete (date_str : pystr)
    (results : list (PostHogProject * ProjectMetrics))
    (errors : list (PostHogProject * pystr)) :
  (forall message,
      format_digest repr_other date_str results errors = Ok message ->
      starts_with ([128200%N] ++ u8 " **Daily Analytics Digest** - " ++ date_str)
        message = true
      /\ (forall p m, In (p, m) results ->
            exists section,
              format_project_section repr_other p m = Ok section
              /\ contains section message = true)
      /\ (forall p e, In (p, e) errors ->
            contains (format_error_section repr_other p e) message = true))
  /\ (exists message, format_digest repr_other date_str [] errors = Ok message).
Proof.
  split; [|eexists; reflexivity].
  intros message H. unfold format_digest in H.
  set (title := [128200%N] ++ u8 " **Daily Analytics Digest** - " ++ date_str) in *.
  set (head3 := [title; u8 "_Week-over-week comparison (vs 7 days ago)_"; []]) in *.
  destruct (match results with
            | [] => Ok head3
            | _ :: _ =>
                summary <- format_summary results ;; Ok (head3 ++ [summary; []])
            end) as [lines|] eqn:L; cbn [bind] in H; [|discriminate].
  destruct (project_sections repr_other results) as [sections|] eqn:S;
    cbn [bind] in H; [|discriminate].
  injection H as <-.
  assert (T : exists more, lines = title :: more).
  { destruct results; [injection L as <-; unfold head3; eauto|].
    destruct (format_summary _); cbn [bind] in L; [|discriminate].
    injection L as <-. unfold head3. cbn [app]. eauto. }
  destruct T as [more ->].
  set (tail := sections
                 ++ flat_map (fun pe => [rule; format_error_section repr_other
                                                 (fst pe) (snd pe)]) errors
                 ++ [rule]).
  split; [|split].
  - apply (starts_with_join [newline] title (more ++ tail)).
  - intros p m Hin.
    destruct (project_sections_In results sections S p m Hin) as [s [Es Is]].
    exists s. split; [exact Es|]. apply contains_join.
    apply in_or_app. right. apply in_or_app. left. exact Is.
  - intros p e Hin. apply contains_join.
    apply in_or_app. right. apply in_or_app. right. apply in_or_app. left.
    apply in_flat_map. exists (p, e). split; [exact Hin|]. right. left. reflexivity.
Qed.

End Digest.

(** A digest of one error. *)
Lemma format_digest_complete_witness :
  exists message,
    format_digest (fun _ => []) (u8 "2024-05-01") []
      [(sample_project (u8 "2"), u8 "Rate limited")] = Ok message
    /\ contains (format_error_section (fun _ => []) (sample_project (u8 "2"))
                   (u8 "Rate limited")) message = true.
Proof.
  destruct (format_digest (fun _ => []) (u8 "2024-05-01") []
              [(sample_project (u8 "2"), u8 "Rate limited")]) as [message|e] eqn:E;
    [|exfalso; vm_compute in E; discriminate].
  exists message. split; [reflexivity|].
  apply (proj2 (proj2 (proj1 (format_digest_complete (fun _ => []) (u8 "2024-05-01") []
                                [(sample_project (u8 "2"), u8 "Rate limited")])
                         message E))).
  left. reflexivity.
Defined.

(** ** discord_client.py: the calls of send_dm *)

Lemma prefix_of_refl {A : Type} (l : list A) : prefix_of l l.
Proof. exists []. now rewrite app_nil_r. Qed.

Lemma prefix_of_cons {A : Type} (a : A) (l1 l2 : list A) :
  prefix_of l1 l2 -> prefix_of (a :: l1) (a :: l2).
Proof. intros [rest ->]. now exists rest. Qed.

Lemma prefix_of_app {A : Type} (l l1 l2 : list A) :
  prefix_of l1 l2 -> prefix_of (l ++ l1) (l ++ l2).
Proof. intros [rest ->]. exists rest. now rewrite app_assoc. Qed.

Lemma send_chunks_calls (chunks : list pystr) :
  forall d, exists tried,
    calls (snd (send_chunks chunks d)) = calls d ++ map Send tried
    /\ prefix_of tried chunks
    /\ (forall u, fst (send_chunks chunks d) = Ok u -> tried = chunks).
Proof.
  induction chunks as [|chunk rest IH]; intros d.
  - exists []. cbn. rewrite app_nil_r. repeat split; auto using prefix_of_refl.
  - cbn [send_chunks]. unfold call.
    destruct (api d (List.length (calls d))) as [u|e].
    + destruct (IH {| api := api d; calls := calls d ++ [Send chunk] |})
        as [tried [C [P F]]].
      exists (chunk :: tried). cbn [calls] in C. rewrite C.
      cbn [map]. rewrite <- app_assoc. repeat split.
      * now apply prefix_of_cons.
      * intros u' H. now rewrite (F u' H).
    + exists [chunk]. cbn [snd fst calls map]. repeat split.
      * exists rest. reflexivity.
      * discriminate.
Qed.

Lemma send_dm_try_calls (config : Config) (message : pystr) (d : discord) :
  exists body,
    calls (snd (send_dm_try config message d)) = calls d ++ body
    /\ prefix_of body (delivery config message)
    /\ (forall u, fst (send_dm_try config message d) = Ok u ->
          body = delivery config message).
Proof.
  unfold send_dm_try, delivery.
  destruct (call (FetchUser (discord_user_id config)) d) as [[u|e] d1] eqn:C1;
    unfold call in C1; injection C1 as _ <-.
  - destruct (call CreateDm _) as [[u'|e'] d2] eqn:C2;
      unfold call in C2; injection C2 as _ <-.
    + match goal with
      | |- context [send_chunks ?c ?x] =>
          destruct (send_chunks_calls c x) as [tried [C [P F]]]
      end.
      exists ([FetchUser (discord_user_id config); CreateDm] ++ map Send tried).
      split; [rewrite C; cbn [calls]; now rewrite <- !app_assoc|]. split.
      * apply prefix_of_app. destruct P as [more ->]. exists (map Send more).
        now rewrite map_app.
      * intros u0 H. now rewrite (F u0 H).
    + exists [FetchUser (discord_user_id config); CreateDm].
      cbn [snd fst calls]. rewrite <- app_assoc. repeat split.
      * exists (map Send (_split_message message 1900)). reflexivity.
      * discriminate.
  - exists [FetchUser (discord_user_id config)]. cbn [snd fst calls]. repeat split.
    + exists (CreateDm :: map Send (_split_message message 1900)). reflexivity.
    + discriminate.
Qed.

(** A [send_dm] that returned made all its calls. *)
Lemma send_dm_returned (config : Config) (message : pystr) (d d1 : discord)
    (u : unit) :
  send_dm config message d = (Ok u, d1) ->
  calls d1 = calls d ++ [Login (discord_bot_token config)]
               ++ delivery config message ++ [Close].
Proof.
  unfold send_dm.
  destruct (call (Login (discord_bot_token config)) d) as [[u0|e] d0] eqn:C0;
    unfold call in C0; injection C0 as _ <-; [|discriminate].
  match goal with
  | |- context [send_dm_try ?c ?m ?x] =>
      destruct (send_dm_try_calls c m x) as [body [C [P F]]];
      destruct (send_dm_try c m x) as [r d2]
  end.
  cbn [fst snd calls] in *.
  destruct (call Close d2) as [[u1|e1] d3] eqn:C3;
    unfold call in C3; injection C3 as _ <-; [|discriminate].
  intros [= -> <-]. cbn [calls]. rewrite C, (F u eq_refl).
  now rewrite <- !app_assoc.
Qed.



(** ** discord_client.py: what the chunks look like *)

Lemma split_loop_current (max_length : Z) (lines : list pystr) :
  forall chunks current,
    lines <> [] \/ current <> [] ->
    snd (split_loop max_length lines chunks current) <> [].
Proof.
  induction lines as [|line rest IH]; intros chunks current H.
  - cbn. destruct H as [H|H]; [contradiction | exact H].
  - cbn [split_loop].
    destruct (len current + len line + 1 >? max_length); apply IH; right;
      intros E; apply (f_equal (@List.length _)) in E;
      rewrite !length_app in E; cbn in E; lia.
Qed.

Lemma rstrip_ends_trimmed (s : pystr) : ends_trimmed (rstrip s).
Proof. destruct (rstrip_spec s) as [t [_ [_ N]]]. exact N. Qed.

Lemma rstrip_all_space (s : pystr) : all_space s -> rstrip s = [].
Proof.
  intros A. destruct (rstrip_spec s) as [t [E [_ N]]].
  destruct (rev (rstrip s)) as [|c r] eqn:R;
    apply (f_equal (@rev _)) in R; rewrite rev_involutive in R; cbn in R;
    [exact R|].
  pose proof (N _ _ R) as F.
  assert (I : In c s).
  { rewrite E, R. apply in_or_app. left. apply in_or_app. right. now left. }
  unfold all_space in A. rewrite Forall_forall in A.
  rewrite (A c I) in F. discriminate.
Qed.

(** [_split_message] never returns an empty list, so a digest is always
    sent as at least one message.  The chunks of a message over the limit
    never end in white space; when such a message is white space only,
    every chunk is the empty string. *)
Theorem split_message_trims (message : pystr) (max_length : Z) :
  _split_message message max_length <> []
  /\ (max_length < len message ->
      Forall ends_trimmed (_split_message message max_length)
      /\ (all_space message ->
          Forall (fun chunk => chunk = []) (_split_message message max_length))).
Proof.
  unfold _split_message.
  destruct (len message <=? max_length) eqn:L.
  - split; [discriminate|]. apply Z.leb_le in L. lia.
  - pose proof (split_loop_current max_length (split newline message) [] []
                  (or_introl (split_nonempty newline message))) as C.
    destruct (split_loop_raw max_length (split newline message) [] [] [] eq_refl
                (Forall_nil _) (or_introl eq_refl)) as [raws [H1 [_ [_ H4]]]].
    rewrite split_join in H4. cbn [List.concat app] in H4.
    destruct (split_loop max_length (split newline message) [] [])
      as [chunks current].
    cbn [fst snd] in *. subst chunks.
    destruct current as [|c0 cs]; [contradiction|].
    cbn [List.length Nat.eqb negb].
    split; [intros E; apply (f_equal (@List.length _)) in E;
            rewrite length_app in E; cbn in E; lia|].
    intros _. split.
    + apply Forall_app. split.
      * apply Forall_forall. intros chunk I. apply in_map_iff in I.
        destruct I as [raw [<- _]]. apply rstrip_ends_trimmed.
      * constructor; [apply rstrip_ends_trimmed | constructor].
    + intros A.
      assert (A' : all_space (List.concat raws ++ c0 :: cs)).
      { rewrite H4. apply Forall_app. split; [exact A|].
        constructor; [reflexivity | constructor]. }
      apply Forall_app in A'. destruct A' as [Ar Ac].
      apply Forall_app. split.
      * apply Forall_forall. intros chunk I. apply in_map_iff in I.
        destruct I as [raw [<- I]]. apply rstrip_all_space.
        apply Forall_forall. intros c Ic.
        unfold all_space in Ar. rewrite Forall_forall in Ar. apply Ar.
        apply in_concat. exists raw. split; assumption.
      * constructor; [now apply rstrip_all_space | constructor].
Qed.

(** Four line breaks under a limit of 3. *)
Lemma split_message_trims_witness :
  Forall (fun chunk => chunk = []) (_split_message (repeat newline 4) 3).
Proof.
  apply (proj2 (split_message_trims (repeat newline 4) 3)).
  - vm_compute. reflexivity.
  - repeat constructor.
Defined.
(** ** main.py: the run *)

Lemma send_chunks_up (chunks : list pystr) :
  forall d,
    (forall n, api d n = Ok tt) ->
    send_chunks chunks d
    = (Ok tt, {| api := api d; calls := calls d ++ map Send chunks |}).
Proof.
  induction chunks as [|chunk rest IH]; intros d U.
  - cbn. rewrite app_nil_r. now destruct d.
  - cbn [send_chunks]. unfold call. rewrite U.
    rewrite IH by exact U. cbn [api calls map].
    now rewrite <- app_assoc.
Qed.

Lemma send_dm_up (config : Config) (message : pystr) (d : discord) :
  (forall n, api d n = Ok tt) ->
  send_dm config message d
  = (Ok tt,
     {| api := api d;
        calls := calls d ++ [Login (discord_bot_token config)]
                   ++ delivery config message ++ [Close] |}).
Proof.
  intros U. unfold send_dm, send_dm_try, call. rewrite !U. cbn [api calls].
  rewrite send_chunks_up by exact U.
  repeat (progress (cbn [api calls]; rewrite ?U)).
  unfold delivery. cbn [app]. now rewrite <- !app_assoc.
Qed.

Lemma read_response_http_error (status : Z) (t : pystr) (body : pyres json) :
  400 <= status ->
  read_response (Response status (Ok t) body)
  = Raise (PostHogAPIError (http_error_message status t)).
Proof.
  intros H4. unfold read_response, http_error_message.
  destruct (status =? 429); [reflexivity|].
  replace (status >=? 400) with true; [reflexivity|].
  symmetry. apply Z.geb_le. lia.
Qed.

Section Run.

Variable int_of_str : pystr -> option Z.
Variable repr_other : json -> pystr.
Variable asyncio_sleep : spec_float -> io unit.
Variable str_of_exn : exn -> pystr.

Lemma collect_total (fetch : PostHogProject -> io ProjectMetrics)
    (projects : list PostHogProject) :
  forall results errors w r e w',
    collect fetch str_of_exn projects results errors w = (Ok (r, e), w') ->
    (List.length r + List.length e
     = List.length projects + List.length results + List.length errors)%nat.
Proof.
  induction projects as [|p rest IH]; intros results errors w r e w' H.
  - cbn in H. injection H as <- <- _. cbn. lia.
  - cbn [collect] in H. destruct (fetch p w) as [[m|ex] w1].
    + apply IH in H. rewrite length_app in H. cbn in *. lia.
    + destruct ex; cbn [is_Exception] in H; try discriminate;
        apply IH in H; rewrite length_app in H; cbn in *; lia.
Qed.

(** A fetch on a network that answers every request with the same HTTP
    error. *)
Lemma fetch_fails_at_http_error (self : PostHogClient) (project : PostHogProject)
    (w : world) (status : Z) (t : pystr) (body : pyres json) :
  session self = true ->
  pauses asyncio_sleep ->
  network w (requests w) = Response status (Ok t) body ->
  400 <= status ->
  exists w',
    fetch_project_metrics int_of_str repr_other asyncio_sleep self project w
    = (Raise (PostHogAPIError (http_error_message status t)), w')
    /\ network w' = network w /\ requests w' = S (requests w).
Proof.
  intros Hs Hp Hn H4.
  destruct (Hp three_tenths w) as [w0 [Es [En Er]]].
  assert (A0 : attempt w0 0
               = Raise (PostHogAPIError (http_error_message status t))).
  { rewrite (attempt_same w w0 0 En Er). unfold attempt.
    rewrite Nat.add_0_r, Hn. now apply read_response_http_error. }
  eexists. split.
  - unfold fetch_project_metrics. rewrite (io_bind_ok _ _ _ _ _ Es).
    apply io_bind_raise. unfold _fetch_active_users.
    rewrite query_then_once by (try assumption; rewrite A0; reflexivity).
    rewrite A0. reflexivity.
  - cbn [advanced network requests]. split; [exact En | lia].
Qed.

Lemma collect_all_failed (self : PostHogClient) (status : Z) (t : pystr)
    (body : pyres json) (projects : list PostHogProject) :
  session self = true ->
  pauses asyncio_sleep ->
  400 <= status ->
  forall results errors w,
    (forall n, network w n = Response status (Ok t) body) ->
    exists w',
      collect (fetch_project_metrics int_of_str repr_other asyncio_sleep self)
        str_of_exn projects results errors w
      = (Ok (results,
             errors ++ map (fun p => (p, str_of_exn (PostHogAPIError
                                                       (http_error_message status t))))
                         projects),
         w')
      /\ requests w' = (requests w + List.length projects)%nat.
Proof.
  intros Hs Hp H4.
  induction projects as [|p rest IH]; intros results errors w Hn.
  - exists w. cbn. rewrite app_nil_r. split; [reflexivity | lia].
  - destruct (fetch_fails_at_http_error self p w status t body Hs Hp (Hn _) H4)
      as [w1 [E [En Er]]].
    destruct (IH results
                (errors ++ [(p, str_of_exn (PostHogAPIError
                                              (http_error_message status t)))])
                w1) as [w' [C R]].
    { intros n. rewrite En. apply Hn. }
    exists w'. cbn [collect]. rewrite E, C. cbn [map List.length].
    rewrite <- app_assoc. split; [reflexivity | lia].
Qed.

(** An exit code of 0 means the digest was delivered: the configuration was
    read, there was at least one project (the configured ones when there
    are any), every project ended in the results or in the errors, the
    digest of these was formatted and every call of its delivery on
    Discord, from [login] to [close], was made.  The "No data to send"
    exit is never taken. *)
Theorem main_success_means_delivered (from_env : pyres Config)
    (date_str : pystr) (w w' : world) (d d' : discord) :
  main int_of_str repr_other asyncio_sleep str_of_exn from_env date_str w d
  = (Ok 0, w', d') ->
  exists config found results errors message,
    from_env = Ok config
    /\ found <> []
    /\ (projects config <> [] -> found = projects config)
    /\ (List.length results + List.length errors = List.length found)%nat
    /\ format_digest repr_other date_str results errors = Ok message
    /\ calls d' = calls d ++ [Login (discord_bot_token config)]
                    ++ delivery config message ++ [Close].
Proof.
  unfold main. intros H.
  destruct from_env as [config|e]; [|destruct e; discriminate].
  set (posthog := PostHogClient__aenter__ (PostHogClient__init__ config)) in *.
  destruct (match projects config with
            | [] => discover_projects repr_other posthog w
            | _ :: _ => (Ok (projects config), w)
            end) as [[found|e] w1] eqn:F; [|destruct e; discriminate].
  destruct found as [|p ps]; [discriminate|].
  destruct (collect _ str_of_exn (p :: ps) [] [] w1) as [[[results errors]|e] w2]
    eqn:C; [|discriminate].
  apply collect_total in C. cbn [List.length] in C.
  assert (T : (List.length results + List.length errors
               = List.length (p :: ps))%nat) by (cbn [List.length]; lia).
  assert (H' : match format_digest repr_other date_str results errors with
               | Ok message =>
                   match send_dm config message d with
                   | (Ok _, d1) => (Ok 0, w2, d1)
                   | (Raise e, d1) =>
                       if is_Exception e then (Ok 1, w2, d1) else (Raise e, w2, d1)
                   end
               | Raise e => (Raise e, w2, d)
               end = (Ok 0, w', d')).
  { destruct results; [destruct errors; [cbn in C; lia|]|]; exact H. }
  clear H.
  destruct (format_digest repr_other date_str results errors) as [message|e]
    eqn:M; [|discriminate].
  destruct (send_dm config message d) as [[u|e] d1] eqn:S.
  - injection H' as _ <-.
    exists config, (p :: ps), results, errors, message.
    repeat split; try assumption; try discriminate.
    + intros N. destruct (projects config); [contradiction|].
      congruence.
    + now apply (send_dm_returned config message d d1 u).
  - destruct (is_Exception e); discriminate.
Qed.

(** With no project configured, the run begins with one GET of the project
    listing and ends there, Discord untouched, when the listing fails or is
    empty: a status of 400 or more and an empty listing give the exit code
    1, while a connection failure, or a listing that cannot be walked, is
    not caught and [main] raises. *)
Theorem main_stops_at_discovery (config : Config) (date_str : pystr)
    (w : world) (d : discord) :
  projects config = [] ->
  let listing :=
    Get (base_url (PostHogClient__init__ config) ++ u8 "/api/projects/") in
  let run :=
    main int_of_str repr_other asyncio_sleep str_of_exn (Ok config) date_str w d in
  (forall status t body,
      network w (requests w) = Response status (Ok t) body -> 400 <= status ->
      run = (Ok 1, advanced w 1 [listing], d))
  /\ (forall detail,
        network w (requests w) = ConnectionFailed detail ->
        run = (Raise (ClientError detail), advanced w 1 [listing], d))
  /\ (forall status text data,
        network w (requests w) = Response status text (Ok data) -> status < 400 ->
        (projects_of_data repr_other data = Ok [] ->
         run = (Ok 1, advanced w 1 [listing], d))
        /\ (forall e,
              projects_of_data repr_other data = Raise e ->
              (forall msg, e <> PostHogAPIError msg) ->
              run = (Raise e, advanced w 1 [listing], d))).
Proof.
  intros Hp listing run. unfold run, main. rewrite Hp.
  unfold discover_projects.
  cbn [PostHogClient__aenter__ PostHogClient__init__ session base_url negb request].
  assert (W : {| network := network w; requests := S (requests w);
                 trace := trace w ++ [listing] |} = advanced w 1 [listing])
    by (apply world_eq; cbn; auto; lia).
  unfold listing in W. cbn [PostHogClient__init__ base_url] in W.
  split; [|split].
  - intros status t body -> H4.
    replace (status >=? 400) with true by (symmetry; apply Z.geb_le; lia).
    cbn [bind]. now rewrite W.
  - intros detail ->. now rewrite W.
  - intros status text data -> H4.
    replace (status >=? 400) with false by (symmetry; rewrite Z.geb_leb; apply Z.leb_gt; lia).
    cbn [bind]. split.
    + intros ->. now rewrite W.
    + intros e -> N. rewrite W. destruct e; try reflexivity.
      exfalso. now apply (N msg).
Qed.

(** When every request is answered with the same HTTP error, each
    configured project fails on its first query, so one request is made per
    project; the digest then holds an error section for every project and
    no metrics, and with Discord up it is delivered and the exit code is
    0. *)
Theorem main_all_failed_exits_zero (config : Config) (date_str : pystr)
    (w : world) (d : discord) (status : Z) (t : pystr) (body : pyres json) :
  projects config <> [] ->
  pauses asyncio_sleep ->
  (forall n, network w n = Response status (Ok t) body) ->
  400 <= status ->
  (forall n, api d n = Ok tt) ->
  let errors :=
    map (fun p => (p, str_of_exn (PostHogAPIError (http_error_message status t))))
      (projects config) in
  exists message w' d',
    format_digest repr_other date_str [] errors = Ok message
    /\ main int_of_str repr_other asyncio_sleep str_of_exn (Ok config) date_str w d
       = (Ok 0, w', d')
    /\ requests w' = (requests w + List.length (projects config))%nat
    /\ calls d' = calls d ++ [Login (discord_bot_token config)]
                    ++ delivery config message ++ [Close].
Proof.
  intros Hne Hp Hn H4 U errors. subst errors.
  destruct (collect_all_failed
              (PostHogClient__aenter__ (PostHogClient__init__ config))
              status t body (projects config) eq_refl Hp H4 [] [] w Hn)
    as [w' [C R]].
  cbn [app] in C.
  destruct (format_digest repr_other date_str [] _) as [message|e] eqn:M;
    [|discriminate].
  exists message, w'. eexists. split; [reflexivity|].
  unfold main.
  destruct (projects config) as [|p ps] eqn:P; [contradiction|].
  rewrite C. cbn [map] in *. rewrite M.
  rewrite (send_dm_up config message d U).
  split; [reflexivity|]. split; [exact R | reflexivity].
Qed.

End Run.
(** One configured project on a network that answers every request with
    status 500, and Discord up: the run exits with 0. *)
Lemma main_success_means_delivered_witness :
  exists message,
    calls (snd (main (fun _ => None) (fun _ => []) sample_sleep sample_str_of_exn
                  (Ok sample_config_one) (u8 "2024-05-01")
                  (answering 500 (u8 "boom")) discord_up))
    = [Login (u8 "token")] ++ delivery sample_config_one message ++ [Close].
Proof.
  pose (r := main (fun _ => None) (fun _ => []) sample_sleep sample_str_of_exn
               (Ok sample_config_one) (u8 "2024-05-01")
               (answering 500 (u8 "boom")) discord_up).
  assert (E : main (fun _ => None) (fun _ => []) sample_sleep sample_str_of_exn
                (Ok sample_config_one) (u8 "2024-05-01")
                (answering 500 (u8 "boom")) discord_up
              = (Ok 0, snd (fst r), snd r)) by (vm_compute; reflexivity).
  destruct (main_success_means_delivered _ _ _ _ _ _ _ _ _ _ E)
    as [config [found [results [errors [message [Ec [_ [_ [_ [_ Hc]]]]]]]]]].
  injection Ec as <-. exists message. exact Hc.
Defined.

(** No project configured and a listing answered with status 500. *)
Lemma main_stops_at_discovery_witness :
  main (fun _ => None) (fun _ => []) sample_sleep sample_str_of_exn
    (Ok sample_config) (u8 "2024-05-01") (answering 500 (u8 "boom")) discord_up
  = (Ok 1,
     advanced (answering 500 (u8 "boom")) 1
       [Get (u8 "https://eu.posthog.com/api/projects/")],
     discord_up).
Proof.
  apply (proj1 (main_stops_at_discovery (fun _ => None) (fun _ => []) sample_sleep
                  sample_str_of_exn sample_config (u8 "2024-05-01")
                  (answering 500 (u8 "boom")) discord_up eq_refl)
           500 (u8 "boom") (Ok JNull) eq_refl).
  lia.
Defined.

(** One configured project, every request answered with status 500. *)
Lemma main_all_failed_exits_zero_witness :
  exists message w' d',
    main (fun _ => None) (fun _ => []) sample_sleep sample_str_of_exn
      (Ok sample_config_one) (u8 "2024-05-01") (answering 500 (u8 "boom")) discord_up
    = (Ok 0, w', d')
    /\ requests w' = 1%nat
    /\ calls d' = [Login (u8 "token")] ++ delivery sample_config_one message ++ [Close].
Proof.
  destruct (main_all_failed_exits_zero (fun _ => None) (fun _ => []) sample_sleep
              sample_str_of_exn sample_config_one (u8 "2024-05-01")
              (answering 500 (u8 "boom")) discord_up 500 (u8 "boom") (Ok JNull))
    as [message [w' [d' [_ [E [R C]]]]]].
  - discriminate.
  - intros s w. exists w. repeat split.
  - reflexivity.
  - lia.
  - reflexivity.
  - exists message, w', d'. split; [exact E|]. split; [exact R | exact C].
Defined.
(** ** formatters.py: the title of a project section *)

Section Titles.

Variable repr_other : json -> pystr.

Lemma format_project_section_title (project : PostHogProject)
    (metrics : ProjectMetrics) (section : pystr) :
  format_project_section repr_other project metrics = Ok section ->
  exists more,
    section
    = join [newline]
        ((emoji_get COLOR_EMOJIS (color project) [9898%N] ++ u8 " **"
            ++ py_str repr_other (name project) ++ u8 "**") :: more).
Proof.
  unfold format_project_section. intros H.
  set (title := emoji_get COLOR_EMOJIS (color project) [9898%N] ++ u8 " **"
                  ++ py_str repr_other (name project) ++ u8 "**") in *.
  destruct (format_change (dau metrics) (prev_dau metrics)); cbn [bind] in H;
    [|discriminate].
  destruct (format_change (wau metrics) (prev_wau metrics)); cbn [bind] in H;
    [|discriminate].
  destruct (format_change (mau metrics) (prev_mau metrics)); cbn [bind] in H;
    [|discriminate].
  destruct (format_change (pageviews_24h metrics) (prev_pageviews_24h metrics));
    cbn [bind] in H; [|discriminate].
  destruct (top_pages metrics); destruct (metric_custom_events metrics);
    try (destruct (event_lines _ _); cbn [bind] in H; [|discriminate]);
    cbv zeta in H; cbn [bind] in H;
    match type of H with
    | Ok ?x = Ok _ => assert (E : section = x) by congruence
    end;
    rewrite E; eexists; apply (f_equal (join [newline])); reflexivity.
Qed.

(** Discovery colours the [i]-th entry of a listing from a palette of
    eight, and only the first four of these colours have an emoji: the
    section of a project with one of the other four is titled with the
    white circle of an unknown colour. *)
Theorem discovered_colour_emoji (i : nat) (project : PostHogProject)
    (metrics : ProjectMetrics) (section : pystr) :
  color project = nth (i mod List.length PROJECT_COLORS) PROJECT_COLORS 0 ->
  format_project_section repr_other project metrics = Ok section ->
  let emoji :=
    nth (i mod 8) [[128309%N]; [128995%N]; [128993%N]; [128994%N]] [9898%N] in
  starts_with (emoji ++ u8 " **" ++ py_str repr_other (name project) ++ u8 "**")
    section = true.
Proof.
  intros Hc H emoji.
  destruct (format_project_section_title project metrics section H) as [more ->].
  assert (E : emoji_get COLOR_EMOJIS (color project) [9898%N] = emoji).
  { rewrite Hc. unfold emoji. change (List.length PROJECT_COLORS) with 8%nat.
    pose proof (Nat.mod_upper_bound i 8 ltac:(discriminate)) as B.
    destruct (i mod 8)%nat as [|[|[|[|[|[|[|[|k]]]]]]]]; try reflexivity. lia. }
  rewrite E. apply (starts_with_join [newline]).
Qed.

End Titles.

(** The sixth project of a listing. *)
Lemma discovered_colour_emoji_witness :
  exists section,
    format_project_section (fun _ => [])
      {| name := JStr (u8 "Shop"); project_id := u8 "6"; color := 3426654;
         custom_events := [] |} sample_metrics = Ok section
    /\ starts_with ([9898%N] ++ u8 " **Shop**") section = true.
Proof.
  destruct (format_project_section (fun _ => [])
              {| name := JStr (u8 "Shop"); project_id := u8 "6"; color := 3426654;
                 custom_events := [] |} sample_metrics) as [section|e] eqn:E;
    [|exfalso; vm_compute in E; discriminate].
  exists section. split; [reflexivity|].
  apply (discovered_colour_emoji (fun _ => []) 5
           {| name := JStr (u8 "Shop"); project_id := u8 "6"; color := 3426654;
              custom_events := [] |} sample_metrics section eq_refl E).
Defined.
